(** * Network analyzer: route-table parsing, port scanning, speed test

    A shallow embedding of the parts of [network_analyzer.py] that turn
    command output into route records ([_parse_windows_route],
    [_parse_unix_route]), probe a port range ([port_scan]), measure
    bandwidth ([run_speed_test]) and look up the public address
    ([_get_external_ip]).

    Conventions.
    - A Python [str] is a [string]; a character is a code point below 256.
    - A Python [dict] with string keys is a [gmap string string].
    - Code that can raise returns a [result]; [try]/[except] is [catch].
    - Errors raised by collaborators (sockets, HTTP, the speed-test
      library) are instances of [Exception] carrying their text [str(e)].
    - Console output ([print]) is not modelled. *)

From Stdlib Require Import ZArith QArith Ascii String List Lia.
From stdpp Require Import base option list list_numbers relations sorting gmap strings pretty.

#[local] Open Scope string_scope.
#[local] Open Scope list_scope.

(** ** Exceptions and results *)

Inductive exn : Type :=
  | Exception (text : string).

(** [str(e)] *)
Definition str (e : exn) : string :=
  match e with Exception text => text end.

Inductive result (A : Type) : Type :=
  | Ok (a : A)
  | Raise (e : exn).

Arguments Ok {A} a.
Arguments Raise {A} e.

#[global] Instance result_ret : MRet result := fun _ a => Ok a.
#[global] Instance result_bind : MBind result := fun _ _ f m =>
  match m with
  | Ok a => f a
  | Raise e => Raise e
  end.

(** [try: body except Exception as e: handler(e)] *)
Definition catch {A} (body : result A) (handler : exn -> result A) : result A :=
  match body with
  | Ok a => Ok a
  | Raise e => handler e
  end.

(** ** Python string primitives *)

Module Py.

(** [str.isspace] on one character, which is also what [\s] matches and
    what [str.strip] removes. *)
Definition isspace (c : ascii) : bool :=
  let n := N_of_ascii c in
  ((9 <=? n) && (n <=? 13) || (28 <=? n) && (n <=? 32) || (n =? 133) || (n =? 160))%N.

(** What [\d] matches. *)
Definition isdigit (c : ascii) : bool :=
  let n := N_of_ascii c in ((48 <=? n) && (n <=? 57))%N.

Definition is_empty (s : string) : bool :=
  match s with
  | EmptyString => true
  | String _ _ => false
  end.

(** Drop the leading, and the trailing, characters that satisfy [drop]. *)
Fixpoint lstrip_by (drop : ascii -> bool) (s : string) : string :=
  match s with
  | EmptyString => EmptyString
  | String c s' => if drop c then lstrip_by drop s' else s
  end.

Fixpoint rstrip_by (drop : ascii -> bool) (s : string) : string :=
  match s with
  | EmptyString => EmptyString
  | String c s' =>
      let r := rstrip_by drop s' in
      if drop c && is_empty r then EmptyString else String c r
  end.

(** [s.strip()] *)
Definition strip (s : string) : string := lstrip_by isspace (rstrip_by isspace s).

(** [s.startswith(p)] *)
Fixpoint startswith (p s : string) : bool :=
  match p, s with
  | EmptyString, _ => true
  | String a p', String b s' => Ascii.eqb a b && startswith p' s'
  | String _ _, EmptyString => false
  end.

(** Put [c] in front of the first piece of a split. *)
Definition cons_head (c : ascii) (pieces : list string) : list string :=
  match pieces with
  | [] => [String c EmptyString]
  | h :: t => String c h :: t
  end.

(** [s.split(sep)] for a one-character separator: every occurrence
    splits, empty pieces are kept. *)
Fixpoint split (sep : ascii) (s : string) : list string :=
  match s with
  | EmptyString => [EmptyString]
  | String c s' =>
      if Ascii.eqb c sep then EmptyString :: split sep s'
      else cons_head c (split sep s')
  end.

(** [re.split(r'\s+', s)]: split at every maximal run of whitespace.
    [in_run] records that the previous character was whitespace. *)
Fixpoint re_split_ws_from (in_run : bool) (s : string) : list string :=
  match s with
  | EmptyString => [EmptyString]
  | String c s' =>
      if isspace c then
        if in_run then re_split_ws_from true s'
        else EmptyString :: re_split_ws_from true s'
      else cons_head c (re_split_ws_from false s')
  end.

Definition re_split_ws (s : string) : list string := re_split_ws_from false s.

Fixpoint skip_digits (s : string) : string :=
  match s with
  | EmptyString => EmptyString
  | String c s' => if isdigit c then skip_digits s' else s
  end.

(** Match [\d+] at the start of [s]; the rest of [s] on success. *)
Definition match_digits (s : string) : option string :=
  match s with
  | String c s' => if isdigit c then Some (skip_digits s') else None
  | EmptyString => None
  end.

(** Match a literal dot at the start of [s]. *)
Definition match_dot (s : string) : option string :=
  match s with
  | String c s' => if Ascii.eqb c "." then Some s' else None
  | EmptyString => None
  end.

(** [re.match(r'^\d+\.\d+\.\d+\.\d+', s)] as a truth value. A digit run
    is followed by a dot, which is no digit, so the greedy match is the
    only one. *)
Definition re_match_ipv4 (s : string) : bool :=
  match
    (s1 ← match_digits s; s2 ← match_dot s1;
     s3 ← match_digits s2; s4 ← match_dot s3;
     s5 ← match_digits s4; s6 ← match_dot s5;
     match_digits s6) : option string
  with
  | Some _ => true
  | None => false
  end.

(** [parts[i]] *)
Definition getitem (parts : list string) (i : nat) : result string :=
  match parts !! i with
  | Some x => Ok x
  | None => Raise (Exception "list index out of range")
  end.

End Py.

(** ** Route-table parsers *)

(** A route is the dict the parsers build. *)
Abbreviation route := (gmap string string).

(** The loop body of [_parse_windows_route], after [line = line.strip()]. *)
Definition windows_line (line : string) (routes : list route) : result (list route) :=
  if Py.startswith "0.0.0.0" line then
    let parts := Py.re_split_ws line in
    if (5 <=? length parts)%nat then
      destination ← Py.getitem parts 0;
      netmask ← Py.getitem parts 1;
      gateway ← Py.getitem parts 2;
      interface ← Py.getitem parts 3;
      metric ← (if (4 <? length parts)%nat then Py.getitem parts 4 else Ok "");
      Ok (routes ++ [ {[ "Destination" := destination;
                         "Netmask" := netmask;
                         "Gateway" := gateway;
                         "Interface" := interface;
                         "Metric" := metric ]} ])
    else Ok routes
  else Ok routes.

(** The loop body of [_parse_unix_route], after [line = line.strip()]. *)
Definition unix_line (line : string) (routes : list route) : result (list route) :=
  if Py.startswith "default" line || Py.startswith "0.0.0.0" line then
    let parts := Py.re_split_ws line in
    if (4 <=? length parts)%nat then
      first ← Py.getitem parts 0;
      gateway ← Py.getitem parts 1;
      genmask ← (if (2 <? length parts)%nat then Py.getitem parts 2 else Ok "");
      flags ← (if (3 <? length parts)%nat then Py.getitem parts 3 else Ok "");
      interface ← (if (5 <? length parts)%nat then Py.getitem parts 5 else Ok "");
      Ok (routes ++ [ {[ "Destination" := (if String.eqb first "default" then "default" else first);
                         "Gateway" := gateway;
                         "Genmask" := genmask;
                         "Flags" := flags;
                         "Interface" := interface ]} ])
    else Ok routes
  else if Py.re_match_ipv4 line then
    let parts := Py.re_split_ws line in
    if (5 <=? length parts)%nat then
      destination ← Py.getitem parts 0;
      gateway ← Py.getitem parts 1;
      genmask ← Py.getitem parts 2;
      flags ← Py.getitem parts 3;
      interface ← (if (5 <? length parts)%nat then Py.getitem parts 5 else Ok "");
      Ok (routes ++ [ {[ "Destination" := destination;
                         "Gateway" := gateway;
                         "Genmask" := genmask;
                         "Flags" := flags;
                         "Interface" := interface ]} ])
    else Ok routes
  else Ok routes.

(** [for line in lines: line = line.strip(); body] *)
Fixpoint for_lines (body : string -> list route -> result (list route))
    (lines : list string) (routes : list route) : result (list route) :=
  match lines with
  | [] => Ok routes
  | line :: rest => routes' ← body (Py.strip line) routes; for_lines body rest routes'
  end.

Definition _parse_windows_route (output : string) : result (list route) :=
  for_lines windows_line (Py.split "010" output) [].

Definition _parse_unix_route (output : string) : result (list route) :=
  for_lines unix_line (Py.split "010" output) [].

(** The collector picks the parser by [platform.system()] and feeds it the
    decoded output of the platform's command; a failing command, or an
    unsupported platform, leaves an error dict instead of a list. *)
Inductive routing_table : Type :=
  | RouteList (routes : list route)
  | RouteError (info : gmap string string).

Definition routes_or_error (r : result (list route)) : routing_table :=
  match r with
  | Ok routes => RouteList routes
  | Raise e => RouteError {[ "error" := str e ]}
  end.

Definition _get_windows_routing_table (check_output : string -> result string) : routing_table :=
  routes_or_error (text ← check_output "route print"; _parse_windows_route text).

Definition _get_unix_routing_table (check_output : string -> result string) : routing_table :=
  routes_or_error (text ← check_output "netstat -rn"; _parse_unix_route text).

Definition _get_routing_table (system : string) (check_output : string -> result string)
    : routing_table :=
  if String.eqb system "Windows" then _get_windows_routing_table check_output
  else if String.eqb system "Linux" || String.eqb system "Darwin"
       then _get_unix_routing_table check_output
  else RouteError {[ "error" := "Unsupported OS" ]}.

(** The three platforms [_get_routing_table] has a parser for. *)
Inductive os_family : Type := Windows | Linux | Darwin.

Definition system_name (family : os_family) : string :=
  match family with
  | Windows => "Windows"
  | Linux => "Linux"
  | Darwin => "Darwin"
  end.

(** The text-to-routes step of [_get_routing_table] for a platform. *)
Definition parseRouteTable (family : os_family) (output : string) : result (list route) :=
  match family with
  | Windows => _parse_windows_route output
  | Linux | Darwin => _parse_unix_route output
  end.

(** One table row of [_display_routing_table]: destination, gateway,
    netmask, interface, metric or flags. *)
Definition route_row (r : route) : list string :=
  [ default "N/A" (r !! "Destination");
    default "N/A" (r !! "Gateway");
    default (default "N/A" (r !! "Genmask")) (r !! "Netmask");
    default "N/A" (r !! "Interface");
    default (default "N/A" (r !! "Flags")) (r !! "Metric") ].

(** *** Line shapes, in the words of the design *)

(** The lines a parser looks at: the pieces between newlines, each with
    the surrounding whitespace removed, as the loops take them. *)
Definition route_lines (output : string) : list string :=
  Py.strip <$> Py.split "010" output.

(** The whitespace-separated fields of a line. *)
Definition fields (line : string) : list string := Py.re_split_ws line.

(** Field [i], or the empty string when the line has no such field. *)
Definition field (parts : list string) (i : nat) : string := default "" (parts !! i).

(** Layout style 1: the line begins with the default-route destination
    token and has at least 5 fields. *)
Definition style1_line (line : string) : bool :=
  Py.startswith "0.0.0.0" line && (5 <=? length (fields line))%nat.

(** Layout style 2, shape (a): the line begins with the literal "default"
    or with the default-route destination token and has at least 4 fields. *)
Definition style2_default_line (line : string) : bool :=
  (Py.startswith "default" line || Py.startswith "0.0.0.0" line)
  && (4 <=? length (fields line))%nat.

(** A line that begins with a dotted-decimal address and has at least
    5 fields: shape (b) of layout style 2. *)
Definition eligible_line (line : string) : bool :=
  Py.re_match_ipv4 line && (5 <=? length (fields line))%nat.

(** A line is recognizable when it has one of the shapes of its layout. *)
Definition recognizable (family : os_family) (line : string) : bool :=
  match family with
  | Windows => style1_line line
  | Linux | Darwin => style2_default_line line || eligible_line line
  end.

(** The positional field map of layout style 1. *)
Definition windows_record (parts : list string) : route :=
  {[ "Destination" := field parts 0;
     "Netmask" := field parts 1;
     "Gateway" := field parts 2;
     "Interface" := field parts 3;
     "Metric" := field parts 4 ]}.

(** The positional field map of layout style 2, shape (b). *)
Definition positional_record (parts : list string) : route :=
  {[ "Destination" := field parts 0;
     "Gateway" := field parts 1;
     "Genmask" := field parts 2;
     "Flags" := field parts 3;
     "Interface" := (if (6 <=? length parts)%nat then field parts 5 else "") ]}.

(** The field map of shape (a). *)
Definition default_record (parts : list string) : route :=
  {[ "Destination" := (if String.eqb (field parts 0) "default" then "default" else field parts 0);
     "Gateway" := field parts 1;
     "Genmask" := field parts 2;
     "Flags" := field parts 3;
     "Interface" := (if (6 <=? length parts)%nat then field parts 5 else "") ]}.

(** What one line contributes to the result of each parser. *)
Definition windows_route (line : string) : option route :=
  if style1_line line then Some (windows_record (fields line)) else None.

Definition unix_route (line : string) : option route :=
  if style2_default_line line then Some (default_record (fields line))
  else if eligible_line line then Some (positional_record (fields line))
  else None.

(** The contribution of a line of either layout, by platform. *)
Definition family_route (family : os_family) (line : string) : option route :=
  match family with
  | Windows => windows_route line
  | Linux | Darwin => unix_route line
  end.

(** *** Sample tables *)

(** The raw text of the default-route scenario. *)
Definition default_scenario : string :=
  "default         192.168.1.1     0.0.0.0         UG        0 0          0 eth0"
  +:+ String "010" "".

(** A Linux table: a header, two address lines (6 and 8 fields) and a
    blank line. *)
Definition address_table : string :=
  "Destination Gateway Genmask Flags MSS Window irtt Iface" +:+ String "010"
  ("10.0.0.0 0.0.0.0 255.0.0.0 U 0 lo" +:+ String "010"
  ("192.168.1.0    0.0.0.0  255.255.255.0  U  0 0  0 eth0" +:+ String "010" "")).


(** ** Port scan *)

(** What [port_scan] takes from outside the program.
    - [int_error s] is the text of the [ValueError] that [int] raises for
      a string [s] it rejects.
    - [connect_ex target port timeout] is one attempt, the body of the
      [with] block of [scan_port]: the code that [connect_ex] returns, or
      the error raised while making the socket, setting its timeout,
      resolving the target or connecting. *)
Record scan_world : Type := {
  int_error : string -> string;
  connect_ex : string -> Z -> Q -> result Z
}.

(** The whitespace [int] skips around a literal. *)
Definition int_space (c : ascii) : bool :=
  let n := N_of_ascii c in
  ((9 <=? n) && (n <=? 13) || (n =? 32) || (n =? 133) || (n =? 160))%N.

Definition digit_value (c : ascii) : Z := Z.of_N (N_of_ascii c) - 48.

(** The digits of a decimal literal, with single underscores allowed
    between digits. [after_digit] tells that the previous character was a
    digit, so that an underscore, or the end, may follow. *)
Fixpoint digits_value (acc : Z) (after_digit : bool) (s : string) : option Z :=
  match s with
  | EmptyString => if after_digit then Some acc else None
  | String c s' =>
      if Py.isdigit c then digits_value (10 * acc + digit_value c) true s'
      else if Ascii.eqb c "_" then
        if after_digit then digits_value acc false s' else None
      else None
  end.

(** An optional sign, then the digits. *)
Definition int_literal (s : string) : option Z :=
  match s with
  | String "+" s' => digits_value 0 false s'
  | String "-" s' => Z.opp <$> digits_value 0 false s'
  | _ => digits_value 0 false s
  end.

(** The number of digits in a literal. *)
Fixpoint digit_count (s : string) : N :=
  match s with
  | EmptyString => 0
  | String c s' => if Py.isdigit c then N.succ (digit_count s') else digit_count s'
  end.

(** The interpreter's cap on the digits of a decimal literal
    ([sys.int_info.default_max_str_digits]). *)
Definition max_str_digits : N := 4300.

(** [int(s)] for a string, base 10: a literal that is well formed is
    still refused when it has more digits than the cap. *)
Definition int (w : scan_world) (s : string) : result Z :=
  let literal := Py.lstrip_by int_space (Py.rstrip_by int_space s) in
  match int_literal literal with
  | Some z =>
      if (digit_count literal <=? max_str_digits)%N then Ok z
      else Raise (Exception (int_error w s))
  | None => Raise (Exception (int_error w s))
  end.

(** [start_port, end_port = map(int, ports.split('-'))]. The map is lazy:
    unpacking converts the first two pieces, then asks for a third to see
    that there is none, which converts the third piece when there is one. *)
Definition parse_ports (w : scan_world) (ports : string) : result (Z * Z) :=
  match Py.split "-" ports with
  | [] => Raise (Exception "not enough values to unpack (expected 2, got 0)")
  | [a] =>
      _ ← int w a;
      Raise (Exception "not enough values to unpack (expected 2, got 1)")
  | a :: b :: rest =>
      start_port ← int w a;
      end_port ← int w b;
      match rest with
      | [] => Ok (start_port, end_port)
      | c :: _ =>
          _ ← int w c;
          Raise (Exception "too many values to unpack (expected 2)")
      end
  end.

(** The string parses into two integers: it has exactly two pieces around
    one dash, and [int] accepts both. *)
Definition two_integers (w : scan_world) (ports : string) (start_port end_port : Z) : Prop :=
  exists a b, Py.split "-" ports = [a; b]
              /\ int w a = Ok start_port /\ int w b = Ok end_port.

(** [range(a, b)] *)
Definition range (a b : Z) : list Z := seqZ a (b - a).

(** The thread function: one attempt; the port is appended to the shared
    list when [connect_ex] returns 0, and any error is swallowed. *)
Definition scan_port (w : scan_world) (target : string) (timeout : Q)
    (port : Z) (open_ports : list Z) : list Z :=
  match connect_ex w target port timeout with
  | Ok code => if (code =? 0)%Z then open_ports ++ [port] else open_ports
  | Raise _ => open_ports
  end.

(** The port accepts a connection within the timeout. *)
Definition is_open (w : scan_world) (target : string) (timeout : Q) (port : Z) : bool :=
  match connect_ex w target port timeout with
  | Ok code => (code =? 0)%Z
  | Raise _ => false
  end.

(** The scan in flight: the ports whose thread the loop has yet to start,
    the threads started and not finished, the shared list [open_ports],
    and the ports probed so far, in the order the attempts completed. *)
Record scan_state : Type := ScanState {
  unstarted : list Z;
  running : list Z;
  open_ports : list Z;
  probed : list Z
}.

(** The main thread starts the threads in the order of the range; a
    started thread finishes at any moment, whatever the others do. An
    attempt touches the shared list by one append at most, so it is taken
    as one step. *)
Inductive scan_step (w : scan_world) (target : string) (timeout : Q)
    : scan_state -> scan_state -> Prop :=
  | thread_start port rest run found tried :
      scan_step w target timeout
        (ScanState (port :: rest) run found tried)
        (ScanState rest (run ++ [port]) found tried)
  | thread_finish rest run1 port run2 found tried :
      scan_step w target timeout
        (ScanState rest (run1 ++ port :: run2) found tried)
        (ScanState rest (run1 ++ run2)
           (scan_port w target timeout port found) (tried ++ [port])).

(** What [port_scan] returns: the list, or the error string. *)
Inductive scan_result : Type :=
  | Ports (found : list Z)
  | ScanError (text : string).

(** [port_scan target ports timeout] returns [r] after probing the ports
    [tried]. The joins return once every started thread has finished.
    Creating or starting the thread of a port can raise (the runtime
    cannot start a new thread): the handler then returns the error string
    at once, without joining the threads already started, and [tried] are
    the ports probed by then. *)
Inductive port_scan (w : scan_world) (target ports : string) (timeout : Q)
    : scan_result -> list Z -> Prop :=
  | port_scan_error e :
      parse_ports w ports = Raise e ->
      port_scan w target ports timeout (ScanError ("Scan error: " +:+ str e)) []
  | port_scan_joined start_port end_port found tried :
      parse_ports w ports = Ok (start_port, end_port) ->
      rtc (scan_step w target timeout)
        (ScanState (range start_port (end_port + 1)) [] [] [])
        (ScanState [] [] found tried) ->
      port_scan w target ports timeout (Ports found) tried
  | port_scan_start_error start_port end_port port rest run found tried e :
      parse_ports w ports = Ok (start_port, end_port) ->
      rtc (scan_step w target timeout)
        (ScanState (range start_port (end_port + 1)) [] [] [])
        (ScanState (port :: rest) run found tried) ->
      port_scan w target ports timeout (ScanError ("Scan error: " +:+ str e)) tried.



(** The open ports among [ports], in the order of [ports]. *)
Definition open_among (w : scan_world) (target : string) (timeout : Q)
    (ports : list Z) : list Z :=
  filter (fun port => is_open w target timeout port = true) ports.

(** Ascending by port value: of two positions, the earlier holds the
    smaller port. *)
Definition ascending (l : list Z) : Prop :=
  forall (i j : nat) (x y : Z),
    (i < j)%nat -> l !! i = Some x -> l !! j = Some y -> (x < y)%Z.

(** What holds of every state of a scan of [ports]: the shared list is
    the open ports among those probed, and every port of the range is
    probed, running or still to start. *)
Definition scan_inv (w : scan_world) (target : string) (timeout : Q)
    (ports : list Z) (st : scan_state) : Prop :=
  open_ports st = open_among w target timeout (probed st)
  /\ probed st ++ running st ++ unstarted st ≡ₚ ports.

(** *** Sample worlds *)

(** The wording of [int]'s error for a short string of plain letters. *)
Definition plain_int_error (s : string) : string :=
  "invalid literal for int() with base 10: '" +:+ s +:+ "'".

(** A host on which only the listed ports accept a connection; the
    others refuse (errno 111). *)
Definition listening (ports : list Z) : scan_world :=
  {| int_error := plain_int_error;
     connect_ex := fun _ port _ => Ok (if bool_decide (port ∈ ports) then 0 else 111)%Z |}.


(** ** Effects: requests sent, in order *)

(** A computation that may raise and that appends to the log of the
    requests sent. *)
Definition io (A : Type) : Type := list string -> result A * list string.

Definition io_ret {A} (a : A) : io A := fun log => (Ok a, log).

Definition io_bind {A B} (m : io A) (k : A -> io B) : io B := fun log =>
  match m log with
  | (Ok a, log') => k a log'
  | (Raise e, log') => (Raise e, log')
  end.

(** [try: body except ...: handler]; both handlers of the lookup catch
    every [Exception]. *)
Definition io_catch {A} (body : io A) (handler : exn -> io A) : io A := fun log =>
  match body log with
  | (Ok a, log') => (Ok a, log')
  | (Raise e, log') => handler e log'
  end.

(** ** Public address lookup *)

(** [requests.get(url).text]: the request is logged; [answer url] is the
    body sent back, or the error raised. *)
Definition requests_get_text (answer : string -> result string) (url : string) : io string :=
  fun log => (answer url, log ++ [url]).

Definition endpoint1 : string := "https://api.ipify.org".
Definition endpoint2 : string := "https://ident.me".

(** The value [_get_external_ip] leaves in [self.external_ip]. *)
Definition _get_external_ip (answer : string -> result string) : io string :=
  io_catch (requests_get_text answer endpoint1)
    (fun _ =>
       io_catch (requests_get_text answer endpoint2)
         (fun e => io_ret ("Error: " +:+ str e))).

(** *** Sample networks *)

Definition offline (url : string) : result string :=
  Raise (Exception ("Failed to resolve " +:+ url)).

Definition only_fallback (url : string) : result string :=
  if String.eqb url endpoint2 then Ok "203.0.113.7"
  else Raise (Exception "Connection refused").

(** ** Speed test *)

(** [st.results] of the speed-test library; a float is a rational. *)
Record results : Type := Results {
  download : Q;
  upload : Q;
  ping : Q;
  server : gmap string string
}.

(** What [run_speed_test] takes from outside the program.
    - [format_2f x] is the text of [x] under the format [:.2f].
    - [Speedtest] is [speedtest.Speedtest()]: the results of the fresh
      object, or the error raised.
    - [get_best_server] is the negotiation.
    - [download_upload st] is the two measurement threads together: the
      results once both have ended, and what the download thread and
      the upload thread raised, if anything. *)
Record speed_world : Type := {
  format_2f : Q -> string;
  Speedtest : result results;
  get_best_server : results -> result results;
  download_upload : results -> results * option exn * option exn
}.

(** [d[key]] on a dict. *)
Definition dict_getitem (d : gmap string string) (key : string) : result string :=
  match d !! key with
  | Some v => Ok v
  | None => Raise (Exception ("'" +:+ key +:+ "'"))
  end.

(** [t.start(); ...; t.join()] for both threads. An error raised inside a
    thread ends that thread and goes no further: [join] returns normally,
    so the caller gets the results and nothing else. *)
Definition start_and_join (w : speed_world) (st : results) : result results :=
  let '(st', _, _) := download_upload w st in Ok st'.

(** The value [run_speed_test] leaves in [self.speed_test_results]. *)
Definition run_speed_test (w : speed_world) : result (gmap string string) :=
  catch
    (st ← Speedtest w;
     st ← get_best_server w st;
     st ← start_and_join w st;
     let download_text := format_2f w (download st / 1000000) +:+ " Mbps" in
     let upload_text := format_2f w (upload st / 1000000) +:+ " Mbps" in
     let ping_text := format_2f w (ping st) +:+ " ms" in
     name ← dict_getitem (server st) "name";
     Ok {[ "Download" := download_text;
           "Upload" := upload_text;
           "Ping" := ping_text;
           "Server" := name ]})
    (fun e => Ok {[ "Error" := str e ]}).

(** *** Report shapes *)

(** A success record: exactly the four fields. *)
Definition success_report (r : gmap string string) : Prop :=
  dom r = ({[ "Download"; "Upload"; "Ping"; "Server" ]} : gset string).

(** A failure record: the error message alone. *)
Definition failure_report (r : gmap string string) : Prop :=
  exists message, r = {[ "Error" := message ]}.

(** A failure record whose message is not empty. *)
Definition nonempty_failure_report (r : gmap string string) : Prop :=
  exists message, r = {[ "Error" := message ]} /\ message <> "".

(** The error, if any, that reaches the handler of [run_speed_test]: one
    raised by the constructor, by the negotiation, or by the lookup of the
    server name. Errors of the two threads are not among them. *)
Definition handled_error (w : speed_world) : option exn :=
  match
    (st ← Speedtest w;
     st ← get_best_server w st;
     st ← start_and_join w st;
     dict_getitem (server st) "name")
  with
  | Ok _ => None
  | Raise e => Some e
  end.

(** *** Sample worlds *)

Definition round_half_even (x : Q) : Z :=
  let n := Qnum x in
  let d := Zpos (Qden x) in
  let q := (n / d)%Z in
  let r := (n mod d)%Z in
  if (2 * r <? d)%Z then q
  else if (d <? 2 * r)%Z then (q + 1)%Z
  else if Z.even q then q else (q + 1)%Z.

Definition two_digits (n : Z) : string :=
  if (n <? 10)%Z then "0" +:+ pretty n else pretty n.

(** Two decimals for a rate that is not negative. *)
Definition fixed2 (x : Q) : string :=
  let h := round_half_even (x * 100) in
  pretty (h / 100)%Z +:+ "." +:+ two_digits (h mod 100)%Z.

Definition fresh_results : results :=
  {| download := 0; upload := 0; ping := 0; server := ∅ |}.

Definition negotiated (st : results) : results :=
  {| download := download st; upload := upload st;
     ping := 25 # 2; server := {[ "name" := "Springfield"; "id" := "1042" ]} |}.

(** Both measurements succeed. *)
Definition healthy : speed_world :=
  {| format_2f := fixed2;
     Speedtest := Ok fresh_results;
     get_best_server := fun st => Ok (negotiated st);
     download_upload := fun st =>
       ({| download := 93456789; upload := 25000000;
           ping := ping st; server := server st |}, None, None) |}.

(** The download thread raises before it stores a rate; the upload
    succeeds. *)
Definition download_fails : speed_world :=
  {| format_2f := fixed2;
     Speedtest := Ok fresh_results;
     get_best_server := fun st => Ok (negotiated st);
     download_upload := fun st =>
       ({| download := download st; upload := 25000000;
           ping := ping st; server := server st |},
        Some (Exception "<urlopen error timed out>"), None) |}.

(** The negotiation raises an error that has no text. *)
Definition silent_failure : speed_world :=
  {| format_2f := fixed2;
     Speedtest := Ok fresh_results;
     get_best_server := fun _ => Raise (Exception "");
     download_upload := fun st => (st, None, None) |}.

(** ** Routing table: the command and the display *)

(** The command whose output [_get_routing_table] parses on a platform. *)
Definition route_command (family : os_family) : string :=
  match family with
  | Windows => "route print"
  | Linux | Darwin => "netstat -rn"
  end.

(** What [_display_routing_table] shows: the error text, or the rows of
    the table. *)
Inductive routing_display : Type :=
  | ShownError (text : string)
  | ShownRows (rows : list (list string)).

(** [_display_routing_table]. A dict that holds "error" is shown as an
    error. Anything else is iterated as a sequence of routes; iterating a
    dict gives its keys, which are strings and have no [get], so a dict
    that is not empty and has no "error" raises. *)
Definition _display_routing_table (table : routing_table) : result routing_display :=
  match table with
  | RouteError info =>
      match info !! "error" with
      | Some text => Ok (ShownError text)
      | None =>
          if decide (info = ∅) then Ok (ShownRows [])
          else Raise (Exception "'str' object has no attribute 'get'")
      end
  | RouteList routes => Ok (ShownRows (route_row <$> routes))
  end.

(** The columns of a row for a line of layout style 1: destination,
    gateway, netmask, interface, metric. *)
Definition windows_row (line : string) : list string :=
  let parts := fields line in
  [field parts 0; field parts 2; field parts 1; field parts 3; field parts 4].

(** The columns of a row for a line of layout style 2: destination,
    gateway, netmask, interface, flags. *)
Definition unix_row (line : string) : list string :=
  let parts := fields line in
  [field parts 0; field parts 1; field parts 2;
   (if (6 <=? length parts)%nat then field parts 5 else ""); field parts 3].

(** No character of the string is whitespace. *)
Fixpoint no_space (s : string) : bool :=
  match s with
  | EmptyString => true
  | String c s' => negb (Py.isspace c) && no_space s'
  end.

(** The keys of a route of each layout. *)
Definition route_keys (family : os_family) : gset string :=
  match family with
  | Windows => {[ "Destination"; "Netmask"; "Gateway"; "Interface"; "Metric" ]}
  | Linux | Darwin => {[ "Destination"; "Gateway"; "Genmask"; "Flags"; "Interface" ]}
  end.

(** *** Sample tables *)

Definition windows_table : string :=
  "Network Destination        Netmask          Gateway       Interface  Metric"
  +:+ String "010"
  ("          0.0.0.0          0.0.0.0      192.168.1.1    192.168.1.23     25"
  +:+ String "010"
  ("        127.0.0.0        255.0.0.0         On-link         127.0.0.1    331"
  +:+ String "010" "")).

Definition command_output (family : os_family) (text : string) (command : string)
    : result string :=
  if String.eqb command (route_command family) then Ok text
  else Raise (Exception "command not found").

(** [sep.join(parts)] *)
Fixpoint join (sep : string) (parts : list string) : string :=
  match parts with
  | [] => ""
  | [part] => part
  | part :: rest => part +:+ sep +:+ join sep rest
  end.

(** Every character of the string is whitespace, and none is a newline:
    padding inside a line. *)
Fixpoint padding (s : string) : bool :=
  match s with
  | EmptyString => true
  | String c s' => Py.isspace c && negb (Ascii.eqb c "010") && padding s'
  end.

(** A field as a table prints it: not empty, no whitespace inside. *)
Definition printed_field (s : string) : bool := negb (Py.is_empty s) && no_space s.

(** The route of a line of each layout, from its fields. *)
Definition family_record (family : os_family) (parts : list string) : route :=
  match family with
  | Windows => windows_record parts
  | Linux | Darwin => positional_record parts
  end.

(** The last character of the string is not whitespace. *)
Fixpoint ends_nonspace (s : string) : bool :=
  match s with
  | EmptyString => false
  | String c EmptyString => negb (Py.isspace c)
  | String _ s' => ends_nonspace s'
  end.

(** ** More on the port scan and the speed test *)

(** The character occurs in the string. *)
Fixpoint contains (c : ascii) (s : string) : bool :=
  match s with
  | EmptyString => false
  | String a s' => Ascii.eqb a c || contains c s'
  end.

(** What [_display_speed_test] shows: the notice that no test was run,
    the error, or the table of the metrics. *)
Inductive speed_display : Type :=
  | NotRunYet
  | ShownSpeedError (text : string)
  | ShownMetrics (metrics : gmap string string).

(** [_display_speed_test]: an empty dict is falsy. *)
Definition _display_speed_test (speed_test_results : gmap string string) : speed_display :=
  if decide (speed_test_results = ∅) then NotRunYet
  else match speed_test_results !! "Error" with
       | Some text => ShownSpeedError ("Error: " +:+ text)
       | None => ShownMetrics speed_test_results
       end.

(** The negotiation leaves a server without a name. *)
Definition nameless_server : speed_world :=
  {| format_2f := fixed2;
     Speedtest := Ok fresh_results;
     get_best_server := fun st =>
       Ok {| download := download st; upload := upload st;
             ping := 25 # 2; server := {[ "id" := "1042" ]} |};
     download_upload := fun st =>
       ({| download := 93456789; upload := 25000000;
           ping := ping st; server := server st |}, None, None) |}.

(** The value of a run of digits read after [acc]. *)
Fixpoint fold_digits (acc : Z) (s : string) : Z :=
  match s with
  | EmptyString => acc
  | String c s' => fold_digits (10 * acc + digit_value c) s'
  end.

(** ** Regular expressions of the WiFi collector *)

(** The rest of [s] after the literal [p], when [s] begins with [p]. *)
Fixpoint strip_prefix (p s : string) : option string :=
  match p, s with
  | EmptyString, _ => Some s
  | String a p', String b s' => if Ascii.eqb a b then strip_prefix p' s' else None
  | String _ _, EmptyString => None
  end.

(** [re.search]: the match at the leftmost position where the pattern
    matches; [pattern s] is the group of a match at the start of [s]. *)
Fixpoint re_search (pattern : string -> option string) (text : string) : option string :=
  match pattern text with
  | Some group => Some group
  | None =>
      match text with
      | EmptyString => None
      | String _ rest => re_search pattern rest
      end
  end.

(** [text.find(label)]: the leftmost position where [label] occurs. *)
Fixpoint index_of (label text : string) : option nat :=
  match strip_prefix label text with
  | Some _ => Some 0%nat
  | None =>
      match text with
      | EmptyString => None
      | String _ rest => S <$> index_of label rest
      end
  end.

Definition newline : ascii := "010".
Definition quote : ascii := "034".

(** The lazy group of the ESSID pattern and the quote that closes it: the
    shortest run of characters other than a newline that a double quote
    follows. *)
Fixpoint until_quote (s : string) : option string :=
  match s with
  | EmptyString => None
  | String c s' =>
      if Ascii.eqb c quote then Some EmptyString
      else if Ascii.eqb c newline then None
      else String c <$> until_quote s'
  end.

(** The longest run of characters other than a newline at the start. *)
Fixpoint line_rest (s : string) : string :=
  match s with
  | EmptyString => EmptyString
  | String c s' => if Ascii.eqb c newline then EmptyString else String c (line_rest s')
  end.

(** The longest run of digits at the start. *)
Fixpoint take_digits (s : string) : string :=
  match s with
  | EmptyString => EmptyString
  | String c s' => if Py.isdigit c then String c (take_digits s') else EmptyString
  end.

(** The label of the ESSID pattern, up to and with the opening quote. *)
Definition essid_label : string := "ESSID:" +:+ String quote "".

(** Every character of the string is a digit. *)
Fixpoint all_digits (s : string) : bool :=
  match s with
  | EmptyString => true
  | String c s' => Py.isdigit c && all_digits s'
  end.

(** [ESSID:"(.*?)"] *)
Definition essid_pattern (s : string) : option string :=
  strip_prefix essid_label s ≫= until_quote.

(** [(\d+/\d+)]: digits, a slash, digits; each run of digits is the
    longest there is. *)
Definition quality_group (rest : string) : option string :=
  let d1 := take_digits rest in
  if Py.is_empty d1 then None
  else
    rest' ← strip_prefix "/" (Py.skip_digits rest);
    let d2 := take_digits rest' in
    if Py.is_empty d2 then None else Some (d1 +:+ "/" +:+ d2).

(** [Link Quality=(\d+/\d+)] *)
Definition quality_pattern (s : string) : option string :=
  strip_prefix "Link Quality=" s ≫= quality_group.

(** [(-?\d+) dBm]: an optional minus sign and the longest run of digits,
    which the literal unit has to follow. *)
Definition signal_group (rest : string) : option string :=
  let '(sign, rest') :=
    match strip_prefix "-" rest with
    | Some r => ("-", r)
    | None => ("", rest)
    end in
  let d := take_digits rest' in
  if Py.is_empty d then None
  else
    _ ← strip_prefix " dBm" (Py.skip_digits rest');
    Some (sign +:+ d).

(** [Signal level=(-?\d+) dBm] *)
Definition signal_pattern (s : string) : option string :=
  strip_prefix "Signal level=" s ≫= signal_group.

(** [(.+)]: the rest of the line, which is not empty. *)
Definition rest_of_line_group (rest : string) : option string :=
  let group := line_rest rest in
  if Py.is_empty group then None else Some group.

(** [label(.+)] for a literal label. *)
Definition rest_of_line_pattern (label s : string) : option string :=
  strip_prefix label s ≫= rest_of_line_group.

(** ** The collector *)

(** What the collector takes from the machine it runs on.
    - [platform f] is [platform.f()].
    - [shell_output cmd] is the decoded output of
      [subprocess.check_output(cmd, shell=True)].
    - [exec_output argv] is the decoded output of
      [subprocess.check_output(argv, ...)], or the error of the command
      or of the decoding.
    - [http_text url] is [requests.get(url).text].
    - [netifaces_gateways] is [netifaces.gateways()], as far as its
      "default" entry goes: absent, or the gateway tuple of each family.
    - [interface_details_outcome] is what [_get_interface_details], which
      is not modelled, leaves in [self.interface_details], and the error
      that escapes it, if any. *)
Record host : Type := {
  platform : string -> result string;
  shell_output : string -> result string;
  exec_output : list string -> result string;
  http_text : string -> result string;
  netifaces_gateways : result (option (gmap Z (list string)));
  interface_details_outcome : gmap string (gmap string (option string)) * option exn
}.

(** The type of [self.routing_table], under a name the attribute of the
    same name does not hide. *)
Abbreviation routing_table_value := routing_table.

Module Self.

(** The attributes of the analyzer that the collection sets.
    [system_info] does not exist before [_get_system_info] has run;
    [active_connections] starts as an empty list and [external_ip] as
    [None]. *)
Record analyzer : Type := Analyzer {
  system : string;
  system_info : option (gmap string string);
  routing_table : routing_table_value;
  interface_details : gmap string (gmap string (option string));
  arp_table : string;
  dns_info : string;
  gateway_info : gmap Z (list string);
  external_ip : option string;
  wifi_info : gmap string string;
  active_connections : option string
}.

(** [__init__] on a platform. *)
Definition init (system : string) : analyzer :=
  Analyzer system None (RouteList []) ∅ "" "" ∅ None ∅ None.










End Self.
















Definition airport : string :=
  "/System/Library/PrivateFrameworks/Apple80211.framework/Versions/Current/Resources/airport".

Definition group_or_na (found : option string) : string := default "N/A" found.

(** The dict of the Linux branch of [_get_wifi_info], from the output of
    [iwconfig]. *)
Definition linux_wifi (text : string) : gmap string string :=
  {[ "SSID" := group_or_na (re_search essid_pattern text);
     "Quality" := group_or_na (re_search quality_pattern text);
     "Signal" := match re_search signal_pattern text with
                 | Some group => group +:+ " dBm"
                 | None => "N/A"
                 end ]}.

(** The dict of the macOS branch, from the output of [airport -I]. *)
Definition darwin_wifi (text : string) : gmap string string :=
  {[ "SSID" := group_or_na (Py.strip <$> re_search (rest_of_line_pattern "SSID: ") text);
     "RSSI" := group_or_na (Py.strip <$> re_search (rest_of_line_pattern "agrCtlRSSI: ") text);
     "Noise" := group_or_na
                  (Py.strip <$> re_search (rest_of_line_pattern "agrCtlNoise: ") text) ]}.

(** The value [_get_wifi_info] leaves in [self.wifi_info]; both handlers
    catch everything. On other platforms nothing is assigned. *)
Definition wifi_dict (h : host) (system : string) (wifi_info : gmap string string)
    : gmap string string :=
  if String.eqb system "Linux" then
    match exec_output h ["iwconfig"] with
    | Ok text => linux_wifi text
    | Raise _ => {[ "Error" := "Could not get WiFi info" ]}
    end
  else if String.eqb system "Darwin" then
    match exec_output h [airport; "-I"] with
    | Ok text => darwin_wifi text
    | Raise _ => {[ "Error" := "Could not get WiFi info" ]}
    end
  else wifi_info.


(** A line [collect_all_info] prints for a task: the tick with the name,
    or the cross with the name and the text of the error. *)
Inductive task_line : Type :=
  | Succeeded (name : string)
  | Failed (name : string) (text : string).

Definition line_name (line : task_line) : string :=
  match line with
  | Succeeded name => name
  | Failed name _ => name
  end.






(** What [_display_wifi_info] shows: the notice, or the rows. *)
Definition _display_wifi_info (wifi_info : gmap string string)
    : option (gmap string string) :=
  if decide (wifi_info = ∅) then None else Some wifi_info.

(** *** Sample hosts and outputs *)

Definition iwconfig_output : string :=
  "wlan0     IEEE 802.11  ESSID:" +:+ String quote ("Home Net" +:+ String quote
  (String newline
  ("          Link Quality=58/70  Signal level=-52 dBm" +:+ String newline ""))).

Definition airport_output : string :=
  "     agrCtlRSSI: -47" +:+ String newline
  ("     agrCtlNoise: -92" +:+ String newline
  ("          BSSID: a4:2b:8c:11:22:33" +:+ String newline
  ("           SSID: Home Net" +:+ String newline ""))).

(** A machine where every command, request and library call fails. *)
Definition broken_host : host :=
  {| platform := fun _ => Raise (Exception "platform unavailable");
     shell_output := fun _ => Raise (Exception "command failed");
     exec_output := fun _ => Raise (Exception "command failed");
     http_text := fun _ => Raise (Exception "network unreachable");
     netifaces_gateways := Raise (Exception "netlink error");
     interface_details_outcome := (∅, Some (Exception "list index out of range")) |}.
(** ** Properties of the parsers *)

#[local] Arguments Nat.leb : simpl never.
#[local] Arguments Nat.ltb : simpl never.

Section Loop.

Variable body : string -> list route -> result (list route).
Variable contribution : string -> option route.
Hypothesis body_appends : forall line routes,
  body line routes = Ok (routes ++ option_list (contribution line)).

Lemma for_lines_appends (lines : list string) (routes : list route) :
  for_lines body lines routes = Ok (routes ++ omap contribution (Py.strip <$> lines)).
Proof.
  revert routes. induction lines as [|line rest IH]; intros routes; simpl.
  - by rewrite app_nil_r.
  - rewrite body_appends. simpl. rewrite IH.
    destruct (contribution (Py.strip line)); simpl.
    + by rewrite <- app_assoc.
    + by rewrite app_nil_r.
Qed.

End Loop.

Lemma getitem_field (parts : list string) (i : nat) :
  (i < length parts)%nat -> Py.getitem parts i = Ok (field parts i).
Proof.
  intros Hi. unfold Py.getitem, field.
  destruct (lookup_lt_is_Some_2 parts i Hi) as [x Hx]. by rewrite Hx.
Qed.

Lemma windows_line_appends (line : string) (routes : list route) :
  windows_line line routes = Ok (routes ++ option_list (windows_route line)).
Proof.
  unfold windows_line, windows_route, style1_line, fields.
  destruct (Py.startswith "0.0.0.0" line); simpl; [|by rewrite app_nil_r].
  destruct (Nat.leb_spec 5 (length (Py.re_split_ws line))) as [Hlen|Hlen];
    simpl; [|by rewrite app_nil_r].
  rewrite !getitem_field by lia.
  destruct (Nat.ltb_spec 4 (length (Py.re_split_ws line))); [|lia].
  reflexivity.
Qed.

Lemma unix_line_appends (line : string) (routes : list route) :
  unix_line line routes = Ok (routes ++ option_list (unix_route line)).
Proof.
  unfold unix_line, unix_route, style2_default_line, eligible_line, fields.
  set (parts := Py.re_split_ws line).
  destruct (Py.startswith "default" line || Py.startswith "0.0.0.0" line); simpl.
  - destruct (Nat.leb_spec 4 (length parts)) as [Hlen|Hlen]; simpl.
    2: { destruct (Nat.leb_spec 5 (length parts)); [lia|].
         rewrite andb_false_r. simpl. by rewrite app_nil_r. }
    rewrite !(getitem_field parts 0), !(getitem_field parts 1) by lia.
    destruct (Nat.ltb_spec 2 (length parts)); [|lia].
    destruct (Nat.ltb_spec 3 (length parts)); [|lia].
    rewrite !(getitem_field parts 2), !(getitem_field parts 3) by lia.
    unfold default_record.
    destruct (Nat.ltb_spec 5 (length parts)); destruct (Nat.leb_spec 6 (length parts));
      try lia; [rewrite (getitem_field parts 5) by lia|]; reflexivity.
  - destruct (Py.re_match_ipv4 line); simpl; [|by rewrite app_nil_r].
    destruct (Nat.leb_spec 5 (length parts)) as [Hlen|Hlen];
      simpl; [|by rewrite app_nil_r].
    rewrite !(getitem_field parts 0), !(getitem_field parts 1),
      !(getitem_field parts 2), !(getitem_field parts 3) by lia.
    unfold positional_record.
    destruct (Nat.ltb_spec 5 (length parts)); destruct (Nat.leb_spec 6 (length parts));
      try lia; [rewrite (getitem_field parts 5) by lia|]; reflexivity.
Qed.

Lemma parse_windows_routes (output : string) :
  _parse_windows_route output = Ok (omap windows_route (route_lines output)).
Proof.
  unfold _parse_windows_route, route_lines.
  by rewrite (for_lines_appends _ _ windows_line_appends).
Qed.

Lemma parse_unix_routes (output : string) :
  _parse_unix_route output = Ok (omap unix_route (route_lines output)).
Proof.
  unfold _parse_unix_route, route_lines.
  by rewrite (for_lines_appends _ _ unix_line_appends).
Qed.

Lemma family_route_recognizable (family : os_family) (line : string) :
  is_Some (family_route family line) <-> recognizable family line = true.
Proof.
  destruct family; simpl; unfold windows_route, unix_route;
    repeat match goal with |- context [if ?b then _ else _] => destruct b; simpl end;
    split; intros H; eauto; try discriminate; by destruct H.
Qed.

Lemma parseRouteTable_routes (family : os_family) (output : string) :
  parseRouteTable family output = Ok (omap (family_route family) (route_lines output)).
Proof.
  destruct family; simpl; auto using parse_windows_routes, parse_unix_routes.
Qed.

Lemma omap_unrecognized (family : os_family) (lines : list string) :
  (forall line, line ∈ lines -> recognizable family line = false) ->
  omap (family_route family) lines = [].
Proof.
  induction lines as [|line rest IH]; intros Hno; simpl; [done|].
  destruct (family_route family line) as [r|] eqn:Hr.
  - assert (recognizable family line = true) as Hyes
      by (apply family_route_recognizable; rewrite Hr; eauto).
    rewrite Hno in Hyes by left. discriminate.
  - apply IH. intros l Hl. apply Hno. by right.
Qed.

Lemma isdigit_not_space (c : ascii) : Py.isdigit c = true -> Py.isspace c = false.
Proof. destruct c as [[] [] [] [] [] [] [] []]; vm_compute; congruence. Qed.

Lemma isdigit_not_d (c : ascii) : Py.isdigit c = true -> Ascii.eqb c "d" = false.
Proof. destruct c as [[] [] [] [] [] [] [] []]; vm_compute; congruence. Qed.

Lemma re_match_ipv4_digit (line : string) :
  Py.re_match_ipv4 line = true ->
  exists c rest, line = String c rest /\ Py.isdigit c = true.
Proof.
  unfold Py.re_match_ipv4. destruct line as [|c rest]; simpl; [discriminate|].
  destruct (Py.isdigit c) eqn:Hc; simpl; [eauto|discriminate].
Qed.

(** The first field of a line that begins with an address is not the
    literal "default". *)
Lemma ipv4_first_field (line : string) :
  Py.re_match_ipv4 line = true ->
  String.eqb (field (fields line) 0) "default" = false.
Proof.
  intros (c & rest & -> & Hc)%re_match_ipv4_digit.
  unfold fields, Py.re_split_ws. simpl.
  rewrite (isdigit_not_space c Hc).
  destruct (Py.re_split_ws_from false rest) as [|h t]; unfold field; simpl;
    by rewrite (isdigit_not_d c Hc).
Qed.

Lemma eligible_default_record (line : string) :
  eligible_line line = true ->
  default_record (fields line) = positional_record (fields line).
Proof.
  unfold eligible_line. intros [Hip _]%andb_prop.
  unfold default_record, positional_record.
  by rewrite (ipv4_first_field line Hip).
Qed.

Lemma omap_eligible (lines : list string) :
  (forall line, line ∈ lines -> recognizable Linux line = true -> eligible_line line = true) ->
  omap unix_route lines = (positional_record ∘ fields) <$> List.filter eligible_line lines.
Proof.
  induction lines as [|line rest IH]; intros Hall; simpl; [done|].
  assert (omap unix_route rest =
          (positional_record ∘ fields) <$> List.filter eligible_line rest) as IH'.
  { apply IH. intros l Hl. apply Hall. by right. }
  specialize (Hall line (list_elem_of_here _ _)). simpl in Hall.
  unfold unix_route at 1.
  destruct (style2_default_line line) eqn:Hdef; simpl in *.
  - rewrite (Hall eq_refl). simpl.
    f_equal; [exact (eligible_default_record line (Hall eq_refl)) | exact IH'].
  - destruct (eligible_line line); simpl; [f_equal|]; exact IH'.
Qed.

(** C1, as the code has it: on the default-route scenario the parser
    returns exactly one route whose destination is "default", gateway
    "192.168.1.1", netmask "0.0.0.0" and flags "UG"; its interface is
    field 5 of the line, which is "0" (the sixth column), not the "eth0"
    of the eighth column. *)
Theorem parse_unix_default_scenario :
  _parse_unix_route default_scenario =
    Ok [ {[ "Destination" := "default";
            "Gateway" := "192.168.1.1";
            "Genmask" := "0.0.0.0";
            "Flags" := "UG";
            "Interface" := "0" ]} ]
  /\ fields (Py.strip default_scenario) =
       ["default"; "192.168.1.1"; "0.0.0.0"; "UG"; "0"; "0"; "0"; "eth0"]
  /\ match _parse_unix_route default_scenario with
     | Ok routes => route_row <$> routes
     | Raise _ => []
     end = [ ["default"; "192.168.1.1"; "0.0.0.0"; "0"; "UG"] ].
Proof. split; [|split]; vm_compute; reflexivity. Qed.

(** C4: for every platform and every text the parser returns a list and
    raises nothing; when no line of the text is recognizable the list is
    empty. *)
Theorem parseRouteTable_total (family : os_family) (output : string) :
  (exists routes, parseRouteTable family output = Ok routes)
  /\ ((forall line, line ∈ route_lines output -> recognizable family line = false) ->
      parseRouteTable family output = Ok []).
Proof.
  rewrite parseRouteTable_routes. split; [eauto|].
  intros Hno. by rewrite omap_unrecognized.
Qed.

Lemma parseRouteTable_total_witness :
  parseRouteTable Darwin ("Routing tables" +:+ String "010" "Internet: 1.2.3") = Ok [].
Proof.
  apply (parseRouteTable_total Darwin ("Routing tables" +:+ String "010" "Internet: 1.2.3")).
  intros line Hline. vm_compute in Hline.
  repeat (apply elem_of_cons in Hline as [->|Hline]; [reflexivity|]).
  by apply elem_of_nil in Hline.
Defined.

(** C8: under layout style 2, when every recognizable line of the text
    begins with a dotted-decimal address and has at least 5 fields, the
    parser returns one route per such line, in order, each built from the
    fields by position: destination 0, gateway 1, netmask 2, flags 3 and
    interface 5 when the line has 6 fields or more, else empty. *)
Theorem parse_unix_eligible_lines (output : string) :
  (forall line, line ∈ route_lines output ->
     recognizable Linux line = true -> eligible_line line = true) ->
  exists routes,
    _parse_unix_route output = Ok routes
    /\ length routes = length (List.filter eligible_line (route_lines output))
    /\ routes = (positional_record ∘ fields) <$> List.filter eligible_line (route_lines output).
Proof.
  intros Hall. eexists. split; [apply parse_unix_routes|].
  rewrite (omap_eligible _ Hall). split; [by rewrite length_fmap|done].
Qed.

Lemma parse_unix_eligible_lines_witness :
  exists routes,
    _parse_unix_route address_table = Ok routes
    /\ length routes = 2%nat
    /\ routes = [ positional_record ["10.0.0.0"; "0.0.0.0"; "255.0.0.0"; "U"; "0"; "lo"];
                  positional_record ["192.168.1.0"; "0.0.0.0"; "255.255.255.0"; "U";
                                     "0"; "0"; "0"; "eth0"] ].
Proof.
  apply (parse_unix_eligible_lines address_table).
  intros line Hline. vm_compute in Hline.
  repeat (apply elem_of_cons in Hline as [->|Hline]; [vm_compute; congruence|]).
  by apply elem_of_nil in Hline.
Defined.

(** ** Properties of the port scan *)

Section Scan.

Variable w : scan_world.
Variable target : string.
Variable timeout : Q.

Lemma scan_port_open (port : Z) (found : list Z) :
  scan_port w target timeout port found =
    if is_open w target timeout port then found ++ [port] else found.
Proof.
  unfold scan_port, is_open.
  destruct (connect_ex w target port timeout) as [code|e]; [|done].
  by destruct (code =? 0)%Z.
Qed.

Lemma open_among_snoc (tried : list Z) (port : Z) :
  scan_port w target timeout port (open_among w target timeout tried) =
    open_among w target timeout (tried ++ [port]).
Proof.
  rewrite scan_port_open. unfold open_among. rewrite filter_app.
  destruct (is_open w target timeout port) eqn:Hopen.
  - by rewrite filter_cons_True.
  - rewrite filter_cons_False by congruence. by rewrite filter_nil, app_nil_r.
Qed.


Lemma scan_step_inv (ports : list Z) (st st' : scan_state) :
  scan_step w target timeout st st' ->
  scan_inv w target timeout ports st -> scan_inv w target timeout ports st'.
Proof.
  intros Hstep [Hfound Hperm]. destruct Hstep; simpl in *; split; simpl.
  - done.
  - rewrite <- Hperm. rewrite <- (assoc_L (++) run [port] rest). done.
  - rewrite Hfound. apply open_among_snoc.
  - rewrite <- Hperm.
    rewrite <- !(assoc_L (++)). apply Permutation_app_head.
    rewrite !(assoc_L (++)). apply Permutation_app_tail.
    simpl. by rewrite Permutation_middle.
Qed.

Lemma scan_steps_inv (ports : list Z) (st st' : scan_state) :
  rtc (scan_step w target timeout) st st' ->
  scan_inv w target timeout ports st -> scan_inv w target timeout ports st'.
Proof. induction 1; eauto using scan_step_inv. Qed.

Lemma scan_inv_initial (ports : list Z) :
  scan_inv w target timeout ports (ScanState ports [] [] []).
Proof. by split. Qed.

(** The loop starts every thread. *)
Lemma start_all (rest run found tried : list Z) :
  rtc (scan_step w target timeout) (ScanState rest run found tried) (ScanState [] (run ++ rest) found tried).
Proof.
  revert run. induction rest as [|port rest IH]; intros run.
  - rewrite app_nil_r. apply rtc_refl.
  - eapply rtc_l; [apply thread_start|].
    replace (run ++ port :: rest) with ((run ++ [port]) ++ rest)
      by (by rewrite <- (assoc_L (++))).
    apply IH.
Qed.

(** The started threads can finish in any order. *)
Lemma finish_all (order run tried : list Z) :
  order ≡ₚ run ->
  rtc (scan_step w target timeout)
    (ScanState [] run (open_among w target timeout tried) tried)
    (ScanState [] [] (open_among w target timeout (tried ++ order)) (tried ++ order)).
Proof.
  revert run tried. induction order as [|port order IH]; intros run tried Hperm.
  - destruct run; [|by apply Permutation_nil_cons in Hperm].
    rewrite app_nil_r. apply rtc_refl.
  - assert (port ∈ run) as (run1 & run2 & ->)%list_elem_of_split
      by (rewrite <- Hperm; left).
    eapply rtc_l; [apply thread_finish|].
    rewrite open_among_snoc.
    replace (tried ++ port :: order) with ((tried ++ [port]) ++ order)
      by (by rewrite <- (assoc_L (++))).
    apply IH. by apply Permutation_cons_app_inv in Hperm.
Qed.

Lemma scan_reaches (ports order : list Z) :
  order ≡ₚ ports ->
  rtc (scan_step w target timeout) (ScanState ports [] [] [])
    (ScanState [] [] (open_among w target timeout order) order).
Proof.
  intros Hperm. etrans; [apply start_all|]. simpl.
  apply (finish_all order ports [] Hperm).
Qed.

Variable ports : string.

Lemma port_scan_sound (start_port end_port : Z) (found tried : list Z) :
  parse_ports w ports = Ok (start_port, end_port) ->
  port_scan w target ports timeout (Ports found) tried ->
  tried ≡ₚ range start_port (end_port + 1)
  /\ found = open_among w target timeout tried.
Proof.
  intros Hparse Hscan. inversion Hscan as [|s e f t Hparse' Hrun|]; subst.
  rewrite Hparse in Hparse'. injection Hparse' as <- <-.
  destruct (scan_steps_inv _ _ _ Hrun (scan_inv_initial _)) as [Hfound Hperm].
  simpl in *. by rewrite !app_nil_r in Hperm.
Qed.

Lemma port_scan_complete (start_port end_port : Z) (order : list Z) :
  parse_ports w ports = Ok (start_port, end_port) ->
  order ≡ₚ range start_port (end_port + 1) ->
  port_scan w target ports timeout (Ports (open_among w target timeout order)) order.
Proof.
  intros Hparse Hperm. eapply port_scan_joined; [exact Hparse|].
  by apply scan_reaches.
Qed.



(** A run of a range that parsed either joins every thread and returns
    the list, or stops at a thread that does not start and returns the
    error string; in the second case the thread of some port of the range
    was never started, and the ports probed by then are ports of the
    range, each probed once. *)
Lemma port_scan_parsed (start_port end_port : Z) (r : scan_result) (tried : list Z) :
  parse_ports w ports = Ok (start_port, end_port) ->
  port_scan w target ports timeout r tried ->
  (exists found, r = Ports found)
  \/ (exists e port,
      r = ScanError ("Scan error: " +:+ str e)
      /\ (port ∈ range start_port (end_port + 1)) /\ (port ∉ tried)
      /\ NoDup tried
      /\ (forall p, p ∈ tried -> p ∈ range start_port (end_port + 1))).
Proof.
  intros Hparse Hscan.
  inversion Hscan as [e' He'|s e' f t He'|s e' p rest run f t e'' He' Hrun]; subst;
    rewrite Hparse in He'; [discriminate|eauto|].
  injection He' as <- <-. right. exists e'', p.
  destruct (scan_steps_inv _ _ _ Hrun (scan_inv_initial _)) as [_ Hperm].
  simpl in Hperm.
  assert (NoDup (tried ++ run ++ p :: rest)) as Hnodup
    by (rewrite Hperm; apply NoDup_seqZ).
  split; [done|]. split; [|split; [|split]].
  - rewrite <- Hperm. rewrite !elem_of_app. right. right. left.
  - apply NoDup_app in Hnodup as (_ & Hdisjoint & _).
    intros Hin. apply (Hdisjoint p Hin). rewrite elem_of_app. right. left.
  - by apply NoDup_app in Hnodup as (? & _ & _).
  - intros q Hq. rewrite <- Hperm. rewrite elem_of_app. by left.
Qed.

Lemma open_among_range (start_port end_port port : Z) (tried : list Z) :
  tried ≡ₚ range start_port (end_port + 1) ->
  port ∈ open_among w target timeout tried <->
  (start_port <= port <= end_port)%Z /\ is_open w target timeout port = true.
Proof.
  intros Hperm. unfold open_among. rewrite list_elem_of_filter, Hperm.
  unfold range. rewrite elem_of_seqZ. intuition lia.
Qed.

End Scan.

Lemma seq_sorted (start len : nat) : StronglySorted lt (seq start len).
Proof.
  revert start. induction len as [|len IH]; intros start; simpl; constructor.
  - apply IH.
  - apply Forall_forall. intros x Hx%elem_of_seq. lia.
Qed.

Lemma filter_sorted {A} (R : relation A) (P : A -> Prop) `{!forall x, Decision (P x)}
    (l : list A) :
  StronglySorted R l -> StronglySorted R (filter P l).
Proof.
  induction 1 as [|x l Hl IH Hx]; [constructor|].
  rewrite filter_cons. destruct (decide (P x)); [|done].
  constructor; [done|].
  apply Forall_forall. intros y [_ Hy]%list_elem_of_filter.
  rewrite Forall_forall in Hx. by apply Hx.
Qed.

Lemma sorted_ascending (l : list Z) : StronglySorted Z.lt l -> ascending l.
Proof.
  intros Hsorted. induction Hsorted as [|x l Hl IH Hx]; intros i j a b Hij Hi Hj.
  - by rewrite lookup_nil in Hi.
  - destruct j as [|j]; [lia|]. simpl in Hj.
    destruct i as [|i]; simpl in Hi.
    + injection Hi as <-. rewrite Forall_forall in Hx. apply Hx.
      by eapply list_elem_of_lookup_2.
    + eapply (IH i j); eauto; lia.
Qed.

Lemma ascending_open_range (w : scan_world) (target : string) (timeout : Q) (a b : Z) :
  ascending (open_among w target timeout (range a b)).
Proof.
  apply sorted_ascending, filter_sorted.
  unfold range, seqZ. apply (StronglySorted_fmap _ lt); [|apply seq_sorted].
  intros x y Hxy. lia.
Qed.

Lemma parse_ports_two_integers (w : scan_world) (ports : string) (start_port end_port : Z) :
  parse_ports w ports = Ok (start_port, end_port) <-> two_integers w ports start_port end_port.
Proof.
  unfold parse_ports, two_integers. split.
  - destruct (Py.split "-" ports) as [|a [|b [|c rest]]]; simpl; try discriminate.
    + destruct (int w a); discriminate.
    + destruct (int w a) as [x|] eqn:Ha; simpl; [|discriminate].
      destruct (int w b) as [y|] eqn:Hb; simpl; [|discriminate].
      intros [= <- <-]. eauto.
    + destruct (int w a); simpl; [|discriminate].
      destruct (int w b); simpl; [|discriminate].
      destruct (int w c); discriminate.
  - intros (a & b & -> & Ha & Hb). simpl. by rewrite Ha, Hb.
Qed.

Lemma not_ascending_11_10 : ~ ascending [11; 10]%Z.
Proof. intros H. specialize (H 0%nat 1%nat 11%Z 10%Z). simpl in H. specialize (H ltac:(lia) eq_refl eq_refl). lia. Qed.

(** C2, refuted as stated: on a host where ports 10 and 11 both accept,
    the scan of "10-11" returns [11; 10] when the attempt on port 11
    completes first, and that list is not ascending. *)
Lemma port_scan_not_ascending :
  port_scan (listening [10; 11]%Z) "127.0.0.1" "10-11" 1 (Ports [11; 10]%Z) [11; 10]%Z
  /\ ~ ascending [11; 10]%Z.
Proof.
  split; [|exact not_ascending_11_10].
  apply (port_scan_complete (listening [10; 11]%Z) "127.0.0.1" 1 "10-11" 10 11 [11; 10]%Z).
  - reflexivity.
  - apply perm_swap.
Qed.

(** C2, amended: when the range string parses to [start] and [end], a
    returned collection holds exactly the ports of the range that accepted
    a connection, each once, in the order in which the attempts completed;
    every completion order can occur; and the collection is ascending when
    the attempts complete in launch order. *)
Theorem port_scan_completion_order (w : scan_world) (target ports : string) (timeout : Q)
    (start_port end_port : Z) :
  parse_ports w ports = Ok (start_port, end_port) ->
  (forall found tried,
     port_scan w target ports timeout (Ports found) tried ->
     tried ≡ₚ range start_port (end_port + 1)
     /\ found = open_among w target timeout tried
     /\ NoDup found
     /\ (forall port, port ∈ found <->
           (start_port <= port <= end_port)%Z /\ is_open w target timeout port = true))
  /\ (forall order,
        order ≡ₚ range start_port (end_port + 1) ->
        port_scan w target ports timeout (Ports (open_among w target timeout order)) order)
  /\ ascending (open_among w target timeout (range start_port (end_port + 1))).
Proof.
  intros Hparse. split; [|split].
  - intros found tried Hscan.
    destruct (port_scan_sound _ _ _ _ _ _ _ _ Hparse Hscan) as [Hperm ->].
    split; [done|]. split; [done|]. split.
    + apply NoDup_filter. rewrite Hperm. apply NoDup_seqZ.
    + intros port. by apply open_among_range.
  - intros order Hperm. by eapply port_scan_complete.
  - apply ascending_open_range.
Qed.

Lemma port_scan_completion_order_witness :
  port_scan (listening [10]%Z) "127.0.0.1" "9-11" (1 # 2)
    (Ports (open_among (listening [10]%Z) "127.0.0.1" (1 # 2) [11; 9; 10]%Z)) [11; 9; 10]%Z
  /\ ascending (open_among (listening [10]%Z) "127.0.0.1" (1 # 2) (range 9 (11 + 1))).
Proof.
  destruct (port_scan_completion_order (listening [10]%Z) "127.0.0.1" "9-11" (1 # 2) 9 11)
    as (_ & Hany & Hasc); [reflexivity|].
  split; [|exact Hasc].
  apply Hany. change (range 9 (11 + 1)) with [9; 10; 11]%Z.
  apply (Permutation_cons_app [9; 10]%Z [] 11%Z). simpl. reflexivity.
Defined.

(** C5: when the range string parses to [start] and [end], every port of
    a returned collection lies in the inclusive interval from [start] to
    [end]. *)
Theorem port_scan_in_range (w : scan_world) (target ports : string) (timeout : Q)
    (start_port end_port : Z) (found tried : list Z) :
  parse_ports w ports = Ok (start_port, end_port) ->
  port_scan w target ports timeout (Ports found) tried ->
  forall port, port ∈ found -> (start_port <= port <= end_port)%Z.
Proof.
  intros Hparse Hscan port Hport.
  destruct (port_scan_sound _ _ _ _ _ _ _ _ Hparse Hscan) as [Hperm ->].
  by apply (open_among_range w target timeout start_port end_port port tried Hperm) in Hport
    as [? _].
Qed.

Lemma port_scan_in_range_witness : (9 <= 10 <= 11)%Z.
Proof.
  apply (port_scan_in_range (listening [10]%Z) "127.0.0.1" "9-11" (1 # 2) 9 11
           [10]%Z [9; 10; 11]%Z).
  - reflexivity.
  - apply (port_scan_complete (listening [10]%Z) "127.0.0.1" (1 # 2) "9-11" 9 11
             [9; 10; 11]%Z); reflexivity.
  - apply list_elem_of_here.
Defined.

(** C10: when the range string parses to [start] and [end] with [start]
    greater than [end], the scan returns the empty list, not an error, and
    probes nothing. *)
Theorem port_scan_inverted_range (w : scan_world) (target ports : string) (timeout : Q)
    (start_port end_port : Z) :
  parse_ports w ports = Ok (start_port, end_port) ->
  (end_port < start_port)%Z ->
  port_scan w target ports timeout (Ports []) []
  /\ (forall r tried, port_scan w target ports timeout r tried -> r = Ports [] /\ tried = []).
Proof.
  intros Hparse Hlt.
  assert (range start_port (end_port + 1) = []) as Hempty
    by (apply seqZ_nil; lia).
  split.
  - apply (port_scan_complete w target timeout ports start_port end_port [] Hparse).
    by rewrite Hempty.
  - intros r tried Hscan.
    destruct (port_scan_parsed _ _ _ _ _ _ _ _ Hparse Hscan)
      as [[found ->]|(e & port & _ & Hport & _)].
    + destruct (port_scan_sound _ _ _ _ _ _ _ _ Hparse Hscan) as [Hperm ->].
      rewrite Hempty in Hperm. apply Permutation_nil_r in Hperm as ->. done.
    + rewrite Hempty in Hport. by apply elem_of_nil in Hport.
Qed.

Lemma port_scan_inverted_range_witness :
  port_scan (listening [80; 443]%Z) "192.168.1.1" "443-80" 1 (Ports []) [].
Proof.
  apply (port_scan_inverted_range (listening [80; 443]%Z) "192.168.1.1" "443-80" 1 443 80).
  - reflexivity.
  - lia.
Defined.





(** ** Properties of the public address lookup *)

(** C9: the lookup asks endpoint 1 first; it asks endpoint 2 exactly when
    endpoint 1 failed; when both fail the result is the text "Error: "
    followed by the text of the second error; and in every case the lookup
    returns a string and raises nothing. *)
Theorem get_external_ip_fallback (answer : string -> result string) :
  (exists ip log, _get_external_ip answer [] = (Ok ip, log))
  /\ (forall text,
        answer endpoint1 = Ok text ->
        _get_external_ip answer [] = (Ok text, [endpoint1]))
  /\ (forall e1 text,
        answer endpoint1 = Raise e1 -> answer endpoint2 = Ok text ->
        _get_external_ip answer [] = (Ok text, [endpoint1; endpoint2]))
  /\ (forall e1 e2,
        answer endpoint1 = Raise e1 -> answer endpoint2 = Raise e2 ->
        _get_external_ip answer [] = (Ok ("Error: " +:+ str e2), [endpoint1; endpoint2])
        /\ Py.startswith "Error:" ("Error: " +:+ str e2) = true).
Proof.
  unfold _get_external_ip, io_catch, requests_get_text, io_ret. simpl.
  split; [|split; [|split]].
  - destruct (answer endpoint1); [eauto|]. destruct (answer endpoint2); eauto.
  - by intros text ->.
  - by intros e1 text -> ->.
  - by intros e1 e2 -> ->.
Qed.

Lemma get_external_ip_fallback_witness :
  _get_external_ip offline [] =
    (Ok "Error: Failed to resolve https://ident.me", [endpoint1; endpoint2])
  /\ Py.startswith "Error:" "Error: Failed to resolve https://ident.me" = true.
Proof.
  apply (proj2 (proj2 (proj2 (get_external_ip_fallback offline)))
           (Exception "Failed to resolve https://api.ipify.org")
           (Exception "Failed to resolve https://ident.me")); reflexivity.
Defined.

(** ** Properties of the speed test *)

Lemma four_fields_success (d u p n : string) :
  success_report {[ "Download" := d; "Upload" := u; "Ping" := p; "Server" := n ]}.
Proof.
  unfold success_report. rewrite !dom_insert_L, dom_singleton_L. set_solver.
Qed.

Lemma four_fields_not_failure (d u p n : string) :
  ~ failure_report {[ "Download" := d; "Upload" := u; "Ping" := p; "Server" := n ]}.
Proof.
  intros [message H]. apply (f_equal (lookup "Download")) in H.
  by rewrite lookup_insert_eq, lookup_singleton_ne in H.
Qed.

Lemma error_field_not_success (message : string) :
  ~ success_report {[ "Error" := message ]}.
Proof.
  unfold success_report. intros H.
  assert ("Download" ∈ dom ({[ "Error" := message ]} : gmap string string)) as Hin
    by (rewrite H; set_solver).
  rewrite dom_singleton_L, elem_of_singleton in Hin. discriminate.
Qed.

Lemma error_field_message (m1 m2 : string) :
  ({[ "Error" := m1 ]} : gmap string string) = {[ "Error" := m2 ]} -> m1 = m2.
Proof.
  intros H. apply (f_equal (lookup "Error")) in H.
  rewrite !lookup_singleton_eq in H. congruence.
Qed.

(** The report is decided by the errors that reach the handler. *)
Lemma run_speed_test_report (w : speed_world) :
  match handled_error w with
  | None =>
      exists d u p n,
        run_speed_test w =
          Ok {[ "Download" := d; "Upload" := u; "Ping" := p; "Server" := n ]}
  | Some e => run_speed_test w = Ok {[ "Error" := str e ]}
  end.
Proof.
  unfold handled_error, run_speed_test, catch.
  destruct (Speedtest w) as [st0|e0]; simpl; [|done].
  destruct (get_best_server w st0) as [st1|e1]; simpl; [|done].
  destruct (start_and_join w st1) as [st2|e2]; simpl; [|done].
  destruct (dict_getitem (server st2) "name") as [name|e3]; simpl; [|done].
  eauto 10.
Qed.

(** C6, as the code has it: with a download thread that raises while the
    negotiation and the upload succeed, the handler is not reached and the
    report is a success record, with the download rate the failed thread
    left behind. A failing negotiation does give the failure record. *)
Theorem run_speed_test_thread_error_lost :
  download_upload download_fails (negotiated fresh_results) =
    ({| download := 0; upload := 25000000; ping := 25 # 2;
        server := {[ "name" := "Springfield"; "id" := "1042" ]} |},
     Some (Exception "<urlopen error timed out>"), None)
  /\ run_speed_test download_fails =
       Ok {[ "Download" := "0.00 Mbps";
             "Upload" := "25.00 Mbps";
             "Ping" := "12.50 ms";
             "Server" := "Springfield" ]}
  /\ (forall w e, Speedtest w = Raise e -> run_speed_test w = Ok {[ "Error" := str e ]})
  /\ (forall w st e,
        Speedtest w = Ok st -> get_best_server w st = Raise e ->
        run_speed_test w = Ok {[ "Error" := str e ]}).
Proof.
  split; [reflexivity|]. split; [vm_compute; reflexivity|]. split.
  - intros w e H. unfold run_speed_test. by rewrite H.
  - intros w st e H1 H2. unfold run_speed_test. rewrite H1. simpl. by rewrite H2.
Qed.

Lemma run_speed_test_thread_error_lost_witness :
  run_speed_test silent_failure = Ok {[ "Error" := "" ]}.
Proof.
  apply (proj2 (proj2 (proj2 run_speed_test_thread_error_lost))
           silent_failure fresh_results (Exception "")); reflexivity.
Defined.

(** C7, refuted as stated: when the negotiation raises an error without
    text, the report is the failure record with the empty message, which
    is neither a success record nor a failure record with a nonempty
    message. *)
Lemma run_speed_test_empty_message :
  run_speed_test silent_failure = Ok {[ "Error" := "" ]}
  /\ ~ success_report {[ "Error" := "" ]}
  /\ ~ nonempty_failure_report {[ "Error" := "" ]}.
Proof.
  split; [reflexivity|]. split; [apply error_field_not_success|].
  intros (message & Heq & Hne). apply error_field_message in Heq. congruence.
Qed.

(** C7, amended: every run returns a report and raises nothing; the
    report is exactly one of a success record with the four fields
    download, upload, ping and server, and a failure record whose only
    field is the message; the message is the text of the error that
    reached the handler, so it is nonempty whenever that text is. *)
Theorem run_speed_test_one_variant (w : speed_world) :
  exists report,
    run_speed_test w = Ok report
    /\ (success_report report /\ ~ failure_report report
        \/ failure_report report /\ ~ success_report report)
    /\ (failure_report report ->
          exists e, handled_error w = Some e
                    /\ report = {[ "Error" := str e ]}
                    /\ (str e <> "" -> nonempty_failure_report report)).
Proof.
  pose proof (run_speed_test_report w) as H.
  destruct (handled_error w) as [e|].
  - exists {[ "Error" := str e ]}. split; [done|]. split.
    + right. split; [by exists (str e)|apply error_field_not_success].
    + intros _. exists e. repeat split. intros Hne. by exists (str e).
  - destruct H as (d & u & p & n & H). eexists. split; [exact H|]. split.
    + left. split; [apply four_fields_success|apply four_fields_not_failure].
    + intros Hfail. by apply four_fields_not_failure in Hfail.
Qed.

Lemma run_speed_test_one_variant_witness :
  exists report,
    run_speed_test healthy = Ok report
    /\ (success_report report /\ ~ failure_report report
        \/ failure_report report /\ ~ success_report report)
    /\ (failure_report report ->
          exists e, handled_error healthy = Some e
                    /\ report = {[ "Error" := str e ]}
                    /\ (str e <> "" -> nonempty_failure_report report)).
Proof. exact (run_speed_test_one_variant healthy). Defined.

(** ** More on the route tables *)

Lemma omap_filter_fmap {A B} (p : A -> bool) (f : A -> B) (l : list A) :
  omap (fun x => if p x then Some (f x) else None) l = f <$> List.filter p l.
Proof.
  induction l as [|x l IH]; [done|]. simpl.
  destruct (p x); simpl; [f_equal|]; exact IH.
Qed.

Lemma omap_pointwise {A B} (f g : A -> option B) (l : list A) :
  (forall x, f x = g x) -> omap f l = omap g l.
Proof.
  intros Hfg. induction l as [|x l IH]; [done|]. simpl.
  rewrite Hfg. destruct (g x); [f_equal|]; exact IH.
Qed.

Lemma default_record_positional (parts : list string) :
  default_record parts = positional_record parts.
Proof.
  unfold default_record, positional_record.
  destruct (String.eqb_spec (field parts 0) "default") as [->|]; reflexivity.
Qed.

Lemma unix_route_positional (line : string) :
  unix_route line =
    if recognizable Linux line then Some (positional_record (fields line)) else None.
Proof.
  unfold unix_route. simpl.
  destruct (style2_default_line line); simpl; [by rewrite default_record_positional|].
  reflexivity.
Qed.

(** X1: for every text the Windows parser returns one route per line that
    begins with "0.0.0.0" and has at least 5 fields, in the order of the
    lines, with destination, netmask, gateway, interface and metric taken
    from fields 0 to 4. *)
Theorem parse_windows_positional (output : string) :
  _parse_windows_route output =
    Ok (windows_record ∘ fields <$> List.filter style1_line (route_lines output)).
Proof.
  rewrite parse_windows_routes. f_equal.
  apply (omap_filter_fmap style1_line (windows_record ∘ fields)).
Qed.

(** X2: for every text the Unix parser returns one route per line of
    shape (a) or (b), in the order of the lines, and every route is built
    from the fields by position: the replacement of a first field equal
    to "default" by "default" changes nothing. *)
Theorem parse_unix_positional (output : string) :
  _parse_unix_route output =
    Ok (positional_record ∘ fields <$> List.filter (recognizable Linux) (route_lines output)).
Proof.
  rewrite parse_unix_routes. f_equal.
  rewrite <- (omap_filter_fmap (recognizable Linux) (positional_record ∘ fields)).
  apply omap_pointwise, unix_route_positional.
Qed.

Lemma split_nonempty (sep : ascii) (s : string) : Py.split sep s <> [].
Proof.
  destruct s as [|c s]; simpl; [done|].
  destruct (Ascii.eqb c sep); [done|]. by destruct (Py.split sep s).
Qed.

Lemma cons_head_app (c : ascii) (l k : list string) :
  l <> [] -> Py.cons_head c (l ++ k) = Py.cons_head c l ++ k.
Proof. by destruct l. Qed.

(** Splitting at a separator distributes over joining with it. *)
Lemma split_join (sep : ascii) (a b : string) :
  Py.split sep (a +:+ String sep b) = Py.split sep a ++ Py.split sep b.
Proof.
  induction a as [|c a IH]; simpl.
  - by rewrite Ascii.eqb_refl.
  - rewrite IH. destruct (Ascii.eqb c sep); [done|].
    apply cons_head_app, split_nonempty.
Qed.

Lemma route_lines_join (a b : string) :
  route_lines (a +:+ String "010" b) = route_lines a ++ route_lines b.
Proof. unfold route_lines. by rewrite split_join, fmap_app. Qed.

(** X3: parsing two texts joined by a newline gives the routes of the
    first followed by the routes of the second, on every platform. *)
Theorem parseRouteTable_join (family : os_family) (a b : string) :
  exists routes_a routes_b,
    parseRouteTable family a = Ok routes_a
    /\ parseRouteTable family b = Ok routes_b
    /\ parseRouteTable family (a +:+ String "010" b) = Ok (routes_a ++ routes_b).
Proof.
  rewrite !parseRouteTable_routes. do 2 eexists. split; [done|]. split; [done|].
  by rewrite route_lines_join, omap_app.
Qed.

Lemma windows_record_keys (parts : list string) :
  dom (windows_record parts) = route_keys Windows.
Proof.
  unfold windows_record, route_keys.
  rewrite !dom_insert_L, dom_singleton_L. set_solver.
Qed.

Lemma positional_record_keys (parts : list string) :
  dom (positional_record parts) = route_keys Linux.
Proof.
  unfold positional_record, route_keys.
  rewrite !dom_insert_L, dom_singleton_L. set_solver.
Qed.

(** Every route of a parse comes from a recognizable line of the text. *)
Lemma parsed_route_line (family : os_family) (output : string) (routes : list route)
    (r : route) :
  parseRouteTable family output = Ok routes -> r ∈ routes ->
  exists line,
    line ∈ route_lines output /\ recognizable family line = true
    /\ r = match family with
           | Windows => windows_record (fields line)
           | Linux | Darwin => positional_record (fields line)
           end.
Proof.
  intros Hparse Hr.
  assert (exists line, line ∈ route_lines output /\ family_route family line = Some r)
    as (line & Hline & Hroute).
  { rewrite parseRouteTable_routes in Hparse. injection Hparse as <-.
    apply list_elem_of_omap in Hr as (line & ? & ?). eauto. }
  exists line. split; [done|].
  assert (recognizable family line = true) as Hrec
    by (apply family_route_recognizable; rewrite Hroute; eauto).
  split; [done|].
  destruct family; simpl in *.
  - unfold windows_route in Hroute. rewrite Hrec in Hroute. congruence.
  - rewrite unix_route_positional in Hroute. simpl in Hroute.
    rewrite Hrec in Hroute. congruence.
  - rewrite unix_route_positional in Hroute. simpl in Hroute.
    rewrite Hrec in Hroute. congruence.
Qed.

(** X4: every route a parser returns has exactly the five keys of its
    layout; "Destination", "Gateway" and "Interface" are always there. *)
Theorem parsed_route_keys (family : os_family) (output : string) (routes : list route)
    (r : route) :
  parseRouteTable family output = Ok routes -> r ∈ routes ->
  dom r = route_keys family
  /\ is_Some (r !! "Destination") /\ is_Some (r !! "Gateway")
  /\ is_Some (r !! "Interface").
Proof.
  intros Hparse Hr.
  destruct (parsed_route_line family output routes r Hparse Hr) as (line & _ & _ & ->).
  assert (forall keys : gset string, forall m : route, dom m = keys ->
            forall k, k ∈ keys -> is_Some (m !! k)) as Hkey
    by (intros keys m <- k; apply elem_of_dom).
  destruct family; (split; [first [apply windows_record_keys|apply positional_record_keys]|]);
    repeat split;
    first [ eapply Hkey; [apply windows_record_keys|]
          | eapply Hkey; [apply positional_record_keys|] ];
    simpl; set_solver.
Qed.

Lemma parsed_route_keys_witness :
  dom (positional_record ["10.0.0.0"; "0.0.0.0"; "255.0.0.0"; "U"; "0"; "lo"])
    = route_keys Linux
  /\ is_Some (positional_record ["10.0.0.0"; "0.0.0.0"; "255.0.0.0"; "U"; "0"; "lo"]
               !! "Destination")
  /\ is_Some (positional_record ["10.0.0.0"; "0.0.0.0"; "255.0.0.0"; "U"; "0"; "lo"]
               !! "Gateway")
  /\ is_Some (positional_record ["10.0.0.0"; "0.0.0.0"; "255.0.0.0"; "U"; "0"; "lo"]
               !! "Interface").
Proof.
  apply (parsed_route_keys Linux address_table
           [ positional_record ["10.0.0.0"; "0.0.0.0"; "255.0.0.0"; "U"; "0"; "lo"];
             positional_record ["192.168.1.0"; "0.0.0.0"; "255.255.255.0"; "U";
                                "0"; "0"; "0"; "eth0"] ]).
  - vm_compute. reflexivity.
  - apply list_elem_of_here.
Defined.

Lemma re_split_no_space (in_run : bool) (s : string) :
  Forall (fun f => no_space f = true) (Py.re_split_ws_from in_run s).
Proof.
  revert in_run. induction s as [|c s IH]; intros in_run; simpl.
  - by repeat constructor.
  - destruct (Py.isspace c) eqn:Hc.
    + destruct in_run; [apply IH|]. constructor; [done|apply IH].
    + specialize (IH false).
      destruct (Py.re_split_ws_from false s) as [|h t]; simpl.
      * repeat constructor. simpl. by rewrite Hc.
      * inversion IH as [|? ? Hh Ht]; subst. constructor; [|done].
        simpl. by rewrite Hc.
Qed.

Lemma field_no_space (line : string) (i : nat) : no_space (field (fields line) i) = true.
Proof.
  unfold field, fields, Py.re_split_ws.
  destruct (Py.re_split_ws_from false line !! i) as [f|] eqn:Hf; simpl; [|done].
  pose proof (re_split_no_space false line) as Hall.
  rewrite Forall_forall in Hall. apply Hall. by eapply list_elem_of_lookup_2.
Qed.

Lemma lookup_five (k1 k2 k3 k4 k5 v1 v2 v3 v4 v5 k v : string) :
  ({[ k1 := v1; k2 := v2; k3 := v3; k4 := v4; k5 := v5 ]} : route) !! k = Some v ->
  v ∈ [v1; v2; v3; v4; v5].
Proof.
  rewrite !lookup_insert_Some, lookup_singleton_Some. intros H.
  repeat (destruct H as [[_ <-]|[_ H]];
          [repeat first [apply list_elem_of_here | apply list_elem_of_further]|]).
  destruct H as [_ <-].
  repeat first [apply list_elem_of_here | apply list_elem_of_further].
Qed.

(** X5: no value of a route a parser returns holds a whitespace
    character. *)
Theorem parsed_route_values_no_space (family : os_family) (output : string)
    (routes : list route) (r : route) (key value : string) :
  parseRouteTable family output = Ok routes -> r ∈ routes ->
  r !! key = Some value -> no_space value = true.
Proof.
  intros Hparse Hr Hvalue.
  destruct (parsed_route_line family output routes r Hparse Hr) as (line & _ & _ & ->).
  assert (no_space (if (6 <=? length (fields line))%nat
                    then field (fields line) 5 else "") = true) as Hif
    by (destruct (6 <=? length (fields line))%nat; [apply field_no_space|done]).
  destruct family; apply lookup_five in Hvalue;
    repeat (apply elem_of_cons in Hvalue as [->|Hvalue];
            [first [apply field_no_space|exact Hif]|]);
    by apply elem_of_nil in Hvalue.
Qed.

Lemma parsed_route_values_no_space_witness : no_space "192.168.1.23" = true.
Proof.
  apply (parsed_route_values_no_space Windows windows_table
           [windows_record ["0.0.0.0"; "0.0.0.0"; "192.168.1.1"; "192.168.1.23"; "25"]]
           (windows_record ["0.0.0.0"; "0.0.0.0"; "192.168.1.1"; "192.168.1.23"; "25"])
           "Interface" "192.168.1.23").
  - vm_compute. reflexivity.
  - apply list_elem_of_here.
  - vm_compute. reflexivity.
Defined.

Lemma system_name_eqb (family : os_family) :
  _get_routing_table (system_name family) =
    match family with
    | Windows => _get_windows_routing_table
    | Linux | Darwin => _get_unix_routing_table
    end.
Proof. by destruct family. Qed.

(** X6: on a platform with a parser, [_get_routing_table] runs that
    platform's command; when the command succeeds the table is the list
    the parser returns for its output, when it fails the table is the
    error dict with the text of the error; on any other platform the table
    is the error dict "Unsupported OS". It never raises. *)
Theorem get_routing_table_cases (check_output : string -> result string) :
  (forall family text,
     check_output (route_command family) = Ok text ->
     exists routes,
       parseRouteTable family text = Ok routes
       /\ _get_routing_table (system_name family) check_output = RouteList routes)
  /\ (forall family e,
        check_output (route_command family) = Raise e ->
        _get_routing_table (system_name family) check_output =
          RouteError {[ "error" := str e ]})
  /\ (forall system,
        (forall family, system <> system_name family) ->
        _get_routing_table system check_output =
          RouteError {[ "error" := "Unsupported OS" ]}).
Proof.
  split; [|split].
  - intros family text Hout. rewrite system_name_eqb.
    exists (omap (family_route family) (route_lines text)).
    split; [apply parseRouteTable_routes|].
    destruct family; simpl in *;
      unfold _get_windows_routing_table, _get_unix_routing_table;
      rewrite Hout; simpl;
      by rewrite ?parse_windows_routes, ?parse_unix_routes.
  - intros family e Hout. rewrite system_name_eqb.
    destruct family; simpl in *;
      unfold _get_windows_routing_table, _get_unix_routing_table;
      by rewrite Hout.
  - intros system Hother. unfold _get_routing_table.
    destruct (String.eqb_spec system "Windows") as [->|_];
      [by destruct (Hother Windows)|].
    destruct (String.eqb_spec system "Linux") as [->|_];
      [by destruct (Hother Linux)|].
    destruct (String.eqb_spec system "Darwin") as [->|_];
      [by destruct (Hother Darwin)|].
    reflexivity.
Qed.

Lemma get_routing_table_cases_witness :
  (exists routes,
     parseRouteTable Windows windows_table = Ok routes
     /\ _get_routing_table "Windows" (command_output Windows windows_table)
        = RouteList routes)
  /\ _get_routing_table "FreeBSD" (command_output Linux address_table)
     = RouteError {[ "error" := "Unsupported OS" ]}.
Proof.
  destruct (get_routing_table_cases (command_output Windows windows_table))
    as (Hok & _ & _).
  destruct (get_routing_table_cases (command_output Linux address_table))
    as (_ & _ & Hother).
  split.
  - apply (Hok Windows windows_table). reflexivity.
  - apply Hother. intros []; discriminate.
Defined.

Lemma route_row_windows (parts : list string) :
  route_row (windows_record parts) =
    [field parts 0; field parts 2; field parts 1; field parts 3; field parts 4].
Proof. reflexivity. Qed.

Lemma route_row_positional (parts : list string) :
  route_row (positional_record parts) =
    [field parts 0; field parts 1; field parts 2;
     (if (6 <=? length parts)%nat then field parts 5 else ""); field parts 3].
Proof. reflexivity. Qed.

Lemma get_routing_table_shape (system : string) (check_output : string -> result string) :
  (exists routes, _get_routing_table system check_output = RouteList routes)
  \/ (exists text, _get_routing_table system check_output = RouteError {[ "error" := text ]}).
Proof.
  unfold _get_routing_table, _get_windows_routing_table, _get_unix_routing_table.
  destruct (String.eqb system "Windows").
  - destruct (check_output "route print") as [text|e]; simpl; [|eauto].
    rewrite parse_windows_routes. simpl. eauto.
  - destruct (String.eqb system "Linux" || String.eqb system "Darwin"); [|eauto].
    destruct (check_output "netstat -rn") as [text|e]; simpl; [|eauto].
    rewrite parse_unix_routes. simpl. eauto.
Qed.

(** X7: showing the table that was collected never raises. When the
    command failed the error text is shown. When it succeeded there is one
    row per recognizable line, with the columns destination, gateway,
    netmask, interface, metric or flags: on Windows these are fields 0, 2,
    1, 3, 4 of the line, on Linux and macOS fields 0, 1, 2, 5 (empty when
    the line has fewer than 6 fields) and 3. *)
Theorem display_collected_routes (check_output : string -> result string) :
  (forall system,
     exists shown,
       _display_routing_table (_get_routing_table system check_output) = Ok shown)
  /\ (forall text,
        check_output "route print" = Ok text ->
        _display_routing_table (_get_routing_table "Windows" check_output) =
          Ok (ShownRows (windows_row <$> List.filter style1_line (route_lines text))))
  /\ (forall family text,
        family <> Windows ->
        check_output "netstat -rn" = Ok text ->
        _display_routing_table (_get_routing_table (system_name family) check_output) =
          Ok (ShownRows (unix_row <$> List.filter (recognizable Linux) (route_lines text))))
  /\ (forall family e,
        check_output (route_command family) = Raise e ->
        _display_routing_table (_get_routing_table (system_name family) check_output) =
          Ok (ShownError (str e))).
Proof.
  split; [|split; [|split]].
  - intros system.
    destruct (get_routing_table_shape system check_output) as [[routes ->]|[text ->]];
      simpl; [eauto|].
    rewrite lookup_singleton_eq. eauto.
  - intros text Hout.
    change (_get_routing_table "Windows" check_output)
      with (_get_windows_routing_table check_output).
    unfold _get_windows_routing_table. rewrite Hout. simpl.
    rewrite parse_windows_positional. simpl.
    by rewrite <- list_fmap_compose.
  - intros family text Hfamily Hout. rewrite system_name_eqb.
    destruct family; [done| |];
      unfold _get_unix_routing_table; rewrite Hout; simpl;
      rewrite parse_unix_positional; simpl;
      by rewrite <- list_fmap_compose.
  - intros family e Hout.
    destruct (get_routing_table_cases check_output) as (_ & Herr & _).
    rewrite (Herr family e Hout). simpl. by rewrite lookup_singleton_eq.
Qed.

Lemma display_collected_routes_witness :
  _display_routing_table (_get_routing_table "Windows" (command_output Windows windows_table))
    = Ok (ShownRows [["0.0.0.0"; "192.168.1.1"; "0.0.0.0"; "192.168.1.23"; "25"]])
  /\ _display_routing_table
       (_get_routing_table "Darwin" (command_output Windows windows_table))
     = Ok (ShownError "command not found").
Proof.
  destruct (display_collected_routes (command_output Windows windows_table))
    as (_ & Hwin & _ & Herr).
  split.
  - apply (Hwin windows_table). reflexivity.
  - apply (Herr Darwin (Exception "command not found")). reflexivity.
Defined.

(** *** A line printed from its fields parses back to them *)

Lemma padding_space (c : ascii) (s : string) :
  padding (String c s) = true ->
  Py.isspace c = true /\ Ascii.eqb c "010" = false /\ padding s = true.
Proof.
  simpl. intros [[Hc Hn]%andb_prop Hs]%andb_prop.
  by apply negb_true_iff in Hn.
Qed.

Lemma printed_field_cons (p : string) :
  printed_field p = true ->
  exists c rest, p = String c rest /\ Py.isspace c = false /\ no_space rest = true.
Proof.
  unfold printed_field. destruct p as [|c rest]; [done|]. simpl.
  intros [Hc Hrest]%andb_prop. apply negb_true_iff in Hc. eauto.
Qed.

(** Splitting a field that is followed by the end of the text, or by
    padding and more text. *)
Lemma re_split_field_end (p : string) :
  no_space p = true -> p <> "" -> Py.re_split_ws_from false p = [p].
Proof.
  induction p as [|c p IH]; [done|]. simpl.
  intros [Hc Hp]%andb_prop _. apply negb_true_iff in Hc. rewrite Hc.
  destruct p as [|c' p']; [done|]. by rewrite IH.
Qed.

Lemma re_split_run (sep rest : string) (c : ascii) :
  padding sep = true -> Py.isspace c = false ->
  Py.re_split_ws_from true (sep +:+ String c rest) =
    Py.re_split_ws_from false (String c rest).
Proof.
  intros Hsep Hc. induction sep as [|s sep IH].
  - simpl. by rewrite Hc.
  - apply padding_space in Hsep as (Hs & _ & Hsep).
    change (String s sep +:+ String c rest) with (String s (sep +:+ String c rest)).
    simpl. rewrite Hs. by apply IH.
Qed.

Lemma re_split_field_more (p sep rest : string) (c : ascii) :
  no_space p = true -> sep <> "" -> padding sep = true -> Py.isspace c = false ->
  Py.re_split_ws_from false (p +:+ sep +:+ String c rest) =
    match p with
    | EmptyString => EmptyString :: Py.re_split_ws_from false (String c rest)
    | _ => p :: Py.re_split_ws_from false (String c rest)
    end.
Proof.
  intros Hp Hne Hsep Hc. induction p as [|a p IH].
  - destruct sep as [|s sep]; [done|].
    apply padding_space in Hsep as (Hs & _ & Hsep).
    change ("" +:+ String s sep +:+ String c rest)
      with (String s (sep +:+ String c rest)).
    simpl. rewrite Hs. f_equal. by apply re_split_run.
  - simpl in Hp. apply andb_prop in Hp as [Ha Hp]. apply negb_true_iff in Ha.
    change (String a p +:+ sep +:+ String c rest)
      with (String a (p +:+ sep +:+ String c rest)).
    cbn [Py.re_split_ws_from]. rewrite Ha, (IH Hp). by destruct p.
Qed.

Lemma join_starts (sep : string) (parts : list string) :
  Forall (fun p => printed_field p = true) parts -> parts <> [] ->
  exists c rest, join sep parts = String c rest /\ Py.isspace c = false.
Proof.
  intros Hall Hne. destruct parts as [|p parts]; [done|].
  inversion Hall as [|? ? Hp _]; subst.
  apply printed_field_cons in Hp as (c & rest & -> & Hc & _).
  destruct parts; simpl; eauto.
Qed.

Lemma fields_join (sep : string) (parts : list string) :
  sep <> "" -> padding sep = true ->
  Forall (fun p => printed_field p = true) parts -> parts <> [] ->
  fields (join sep parts) = parts.
Proof.
  intros Hne Hsep Hall. unfold fields, Py.re_split_ws.
  induction Hall as [|p parts Hp Hall IH]; intros Hparts; [done|].
  destruct parts as [|q parts].
  - simpl. apply printed_field_cons in Hp as (c & rest & -> & Hc & Hrest).
    apply re_split_field_end; [|done]. simpl. by rewrite Hc.
  - destruct (join_starts sep (q :: parts) Hall) as (c & rest & Hjoin & Hc); [done|].
    change (join sep (p :: q :: parts)) with (p +:+ sep +:+ join sep (q :: parts)).
    rewrite Hjoin in IH |- *.
    pose proof Hp as (a & p' & -> & Ha & Hp')%printed_field_cons.
    rewrite re_split_field_more; [by rewrite IH|simpl; by rewrite Ha|done..].

Qed.

Lemma string_append_assoc (a b c : string) : (a +:+ b) +:+ c = a +:+ (b +:+ c).
Proof.
  induction a as [|x a IH]; [done|].
  change (String x (a +:+ b) +:+ c = String x (a +:+ (b +:+ c))).
  change (String x ((a +:+ b) +:+ c) = String x (a +:+ (b +:+ c))). by rewrite IH.
Qed.

Lemma contains_append (c : ascii) (a b : string) :
  contains c (a +:+ b) = contains c a || contains c b.
Proof.
  induction a as [|x a IH]; [done|].
  change (String x a +:+ b) with (String x (a +:+ b)). simpl.
  by rewrite IH, orb_assoc.
Qed.

Lemma padding_no_newline (s : string) : padding s = true -> contains "010" s = false.
Proof.
  induction s as [|c s IH]; [done|].
  intros (_ & Hn & Hs)%padding_space. simpl. by rewrite Hn, IH.
Qed.

Lemma no_space_no_newline (s : string) : no_space s = true -> contains "010" s = false.
Proof.
  induction s as [|c s IH]; [done|]. simpl.
  intros [Hc Hs]%andb_prop. rewrite IH by done.
  destruct (Ascii.eqb_spec c "010") as [->|]; [discriminate|done].
Qed.

Lemma join_no_newline (sep : string) (parts : list string) :
  padding sep = true -> Forall (fun p => printed_field p = true) parts ->
  contains "010" (join sep parts) = false.
Proof.
  intros Hsep Hall. induction Hall as [|p parts Hp Hall IH]; [done|].
  assert (contains "010" p = false) as Hpn.
  { apply no_space_no_newline. unfold printed_field in Hp.
    by apply andb_prop in Hp as [_ ?]. }
  destruct parts as [|q parts]; [done|].
  change (join sep (p :: q :: parts)) with (p +:+ sep +:+ join sep (q :: parts)).
  by rewrite !contains_append, Hpn, (padding_no_newline sep), IH.
Qed.

Lemma split_one_line (text : string) :
  contains "010" text = false -> Py.split "010" text = [text].
Proof.
  induction text as [|c text IH]; [done|]. simpl.
  intros [Hc Htext]%orb_false_elim. by rewrite Hc, IH.
Qed.

Lemma rstrip_app_padding (a t : string) :
  padding t = true ->
  Py.rstrip_by Py.isspace (a +:+ t) = Py.rstrip_by Py.isspace a.
Proof.
  intros Ht. induction a as [|c a IH].
  - change ("" +:+ t) with t. induction t as [|s t IHt]; [done|].
    apply padding_space in Ht as (Hs & _ & Ht). simpl. by rewrite IHt, Hs.
  - change (String c a +:+ t) with (String c (a +:+ t)). simpl. by rewrite IH.
Qed.

Lemma rstrip_cons (drop : ascii -> bool) (c : ascii) (s : string) :
  Py.rstrip_by drop (String c s) =
    if drop c && Py.is_empty (Py.rstrip_by drop s) then EmptyString
    else String c (Py.rstrip_by drop s).
Proof. reflexivity. Qed.

Lemma rstrip_ends_nonspace (s : string) :
  ends_nonspace s = true -> Py.rstrip_by Py.isspace s = s.
Proof.
  induction s as [|c s IH]; [done|].
  destruct s as [|c' s'].
  - simpl. intros Hc. apply negb_true_iff in Hc. by rewrite Hc.
  - intros Hs. change (ends_nonspace (String c' s') = true) in Hs.
    rewrite rstrip_cons, (IH Hs). simpl. by rewrite andb_false_r.
Qed.

Lemma ends_nonspace_append (a b : string) :
  b <> "" -> ends_nonspace (a +:+ b) = ends_nonspace b.
Proof.
  intros Hb. induction a as [|c a IH]; [done|].
  change (String c a +:+ b) with (String c (a +:+ b)).
  destruct (a +:+ b) as [|x y] eqn:Hab.
  - destruct a; [|discriminate]. by destruct b.
  - cbn [ends_nonspace]. exact IH.
Qed.

Lemma printed_field_ends (p : string) : printed_field p = true -> ends_nonspace p = true.
Proof.
  unfold printed_field. intros [Hne Hp]%andb_prop.
  induction p as [|c p IH]; [done|].
  simpl in Hp. apply andb_prop in Hp as [Hc Hp].
  destruct p as [|c' p']; [done|]. by apply IH.
Qed.

Lemma join_ends (sep : string) (parts : list string) :
  Forall (fun p => printed_field p = true) parts -> parts <> [] ->
  ends_nonspace (join sep parts) = true.
Proof.
  intros Hall. induction Hall as [|p parts Hp Hall IH]; intros Hparts; [done|].
  destruct parts as [|q parts]; [by apply printed_field_ends|].
  change (join sep (p :: q :: parts)) with (p +:+ sep +:+ join sep (q :: parts)).
  destruct (join_starts sep (q :: parts) Hall) as (c & rest & Hjoin & _); [done|].
  rewrite !ends_nonspace_append; [by apply IH| |].
  - by rewrite Hjoin.
  - rewrite Hjoin. by destruct sep.
Qed.

Lemma lstrip_app_padding (lead rest : string) (c : ascii) :
  padding lead = true -> Py.isspace c = false ->
  Py.lstrip_by Py.isspace (lead +:+ String c rest) = String c rest.
Proof.
  intros Hlead Hc. induction lead as [|s lead IH].
  - simpl. by rewrite Hc.
  - apply padding_space in Hlead as (Hs & _ & Hlead).
    change (String s lead +:+ String c rest) with (String s (lead +:+ String c rest)).
    simpl. rewrite Hs. by apply IH.
Qed.

Lemma strip_padded_line (lead sep trail : string) (parts : list string) :
  padding lead = true -> padding trail = true ->
  Forall (fun p => printed_field p = true) parts -> parts <> [] ->
  Py.strip (lead +:+ join sep parts +:+ trail) = join sep parts.
Proof.
  intros Hlead Htrail Hall Hparts. unfold Py.strip.
  destruct (join_starts sep parts Hall Hparts) as (c & rest & Hjoin & Hc).
  rewrite <- string_append_assoc, rstrip_app_padding by done.
  rewrite rstrip_ends_nonspace.
  - rewrite Hjoin. by apply lstrip_app_padding.
  - rewrite ends_nonspace_append; [by apply join_ends|by rewrite Hjoin].
Qed.

(** X18: a line printed from fields parses back to them, whatever the
    padding. For a nonempty list of fields that are not empty and hold no
    whitespace, joined by any padding and with any padding before and
    after, the parser of a platform returns the one route built from those
    fields when the line is recognizable for the platform, and no route
    otherwise. *)
Theorem parse_printed_line (family : os_family) (lead sep trail : string)
    (parts : list string) :
  padding lead = true -> padding trail = true ->
  sep <> "" -> padding sep = true ->
  Forall (fun p => printed_field p = true) parts -> parts <> [] ->
  fields (join sep parts) = parts
  /\ parseRouteTable family (lead +:+ join sep parts +:+ trail) =
       Ok (if recognizable family (join sep parts)
           then [family_record family parts] else []).
Proof.
  intros Hlead Htrail Hne Hsep Hall Hparts.
  pose proof (fields_join sep parts Hne Hsep Hall Hparts) as Hfields.
  split; [done|].
  rewrite parseRouteTable_routes. unfold route_lines.
  rewrite split_one_line.
  2: { rewrite !contains_append, (padding_no_newline lead), (padding_no_newline trail),
         (join_no_newline sep parts) by done. done. }
  cbn [fmap list_fmap]. rewrite strip_padded_line by done.
  cbn [omap list_omap]. f_equal.
  destruct family; simpl.
  - unfold windows_route. rewrite Hfields. by destruct (style1_line _).
  - rewrite unix_route_positional, Hfields. simpl.
    by destruct (style2_default_line _ || eligible_line _).
  - rewrite unix_route_positional, Hfields. simpl.
    by destruct (style2_default_line _ || eligible_line _).
Qed.

Lemma parse_printed_line_witness :
  fields (join "   " ["0.0.0.0"; "0.0.0.0"; "192.168.1.1"; "192.168.1.23"; "25"])
    = ["0.0.0.0"; "0.0.0.0"; "192.168.1.1"; "192.168.1.23"; "25"]
  /\ parseRouteTable Windows
       ("          " +:+ join "   " ["0.0.0.0"; "0.0.0.0"; "192.168.1.1"; "192.168.1.23"; "25"]
        +:+ "  ")
     = Ok [windows_record ["0.0.0.0"; "0.0.0.0"; "192.168.1.1"; "192.168.1.23"; "25"]].
Proof.
  apply (parse_printed_line Windows "          " "   " "  "
           ["0.0.0.0"; "0.0.0.0"; "192.168.1.1"; "192.168.1.23"; "25"]);
    try reflexivity; try discriminate.
  repeat constructor.
Defined.

(** ** More on the port scan *)

Lemma split_pieces_no_sep (sep : ascii) (s : string) :
  Forall (fun piece => contains sep piece = false) (Py.split sep s).
Proof.
  induction s as [|c s IH]; simpl; [by repeat constructor|].
  destruct (Ascii.eqb c sep) eqn:Hc; [by constructor|].
  destruct (Py.split sep s) as [|h t]; simpl.
  - repeat constructor. simpl. by rewrite Hc.
  - inversion IH; subst. constructor; [|done]. simpl. by rewrite Hc.
Qed.

Lemma lstrip_contains (drop : ascii -> bool) (c : ascii) (s : string) :
  contains c s = false -> contains c (Py.lstrip_by drop s) = false.
Proof.
  induction s as [|a s IH]; simpl; [done|].
  intros [Ha Hs]%orb_false_elim.
  destruct (drop a); [by apply IH|]. simpl. by rewrite Ha, Hs.
Qed.

Lemma rstrip_contains (drop : ascii -> bool) (c : ascii) (s : string) :
  contains c s = false -> contains c (Py.rstrip_by drop s) = false.
Proof.
  induction s as [|a s IH]; simpl; [done|].
  intros [Ha Hs]%orb_false_elim.
  destruct (drop a && Py.is_empty (Py.rstrip_by drop s)); [done|].
  simpl. rewrite Ha. by apply IH.
Qed.

Lemma isdigit_value (c : ascii) : Py.isdigit c = true -> (0 <= digit_value c <= 9)%Z.
Proof. destruct c as [[] [] [] [] [] [] [] []]; vm_compute; intuition congruence. Qed.

Lemma digits_value_nonneg (acc : Z) (after_digit : bool) (s : string) (z : Z) :
  (0 <= acc)%Z -> digits_value acc after_digit s = Some z -> (0 <= z)%Z.
Proof.
  revert acc after_digit. induction s as [|c s IH]; intros acc after_digit Hacc; simpl.
  - destruct after_digit; [|discriminate]. by intros [= <-].
  - destruct (Py.isdigit c) eqn:Hc.
    + apply IH. pose proof (isdigit_value c Hc). lia.
    + destruct (Ascii.eqb c "_"); [|discriminate].
      destruct after_digit; [|discriminate]. by apply IH.
Qed.

Lemma int_literal_unsigned (c : ascii) (s : string) :
  c <> "+"%char -> c <> "-"%char ->
  int_literal (String c s) = digits_value 0 false (String c s).
Proof.
  intros Hplus Hminus.
  destruct c as [[] [] [] [] [] [] [] []]; try reflexivity; congruence.
Qed.

Lemma int_literal_nonneg (s : string) (z : Z) :
  contains "-" s = false -> int_literal s = Some z -> (0 <= z)%Z.
Proof.
  destruct s as [|c s]; [discriminate|].
  intros Hc Hlit. cbn [contains] in Hc. apply orb_false_elim in Hc as [Hc _].
  destruct (Ascii.eqb_spec c "+") as [->|Hplus].
  - cbn in Hlit. by apply digits_value_nonneg in Hlit.
  - rewrite int_literal_unsigned in Hlit; [by apply digits_value_nonneg in Hlit|done|].
    intros ->. discriminate.
Qed.

Lemma int_nonneg (w : scan_world) (s : string) (z : Z) :
  contains "-" s = false -> int w s = Ok z -> (0 <= z)%Z.
Proof.
  unfold int. intros Hs.
  destruct (int_literal _) as [z'|] eqn:Hlit; [|discriminate].
  destruct (digit_count _ <=? max_str_digits)%N; [|discriminate].
  intros [= <-]. eapply int_literal_nonneg; [|exact Hlit].
  by apply lstrip_contains, rstrip_contains.
Qed.

(** X8: the two numbers of a range that parses are never negative: a
    minus sign cannot survive the split at the dashes. *)
Theorem parse_ports_nonneg (w : scan_world) (ports : string) (start_port end_port : Z) :
  parse_ports w ports = Ok (start_port, end_port) ->
  (0 <= start_port)%Z /\ (0 <= end_port)%Z.
Proof.
  intros (a & b & Hsplit & Ha & Hb)%parse_ports_two_integers.
  pose proof (split_pieces_no_sep "-" ports) as Hpieces.
  rewrite Hsplit in Hpieces.
  inversion Hpieces as [|? ? Hna Hrest]; subst.
  inversion Hrest as [|? ? Hnb _]; subst.
  split; [exact (int_nonneg w a _ Hna Ha)|exact (int_nonneg w b _ Hnb Hb)].
Qed.

Lemma parse_ports_nonneg_witness : (0 <= 80)%Z /\ (0 <= 443)%Z.
Proof.
  apply (parse_ports_nonneg (listening []) " 80-+4_43 " 80 443). reflexivity.
Defined.

(** ** More on the speed test *)

(** X10: when the constructor and the negotiation succeed, the report is
    read off the results the two threads leave, whatever they raised. With
    a server name it is the success record of the formatted rates, the
    formatted ping and that name; without one it is the failure record
    whose message is the missing key in quotes, although both measurements
    ran. *)
Theorem run_speed_test_contents (w : speed_world) (st0 st1 st2 : results)
    (download_error upload_error : option exn) :
  Speedtest w = Ok st0 ->
  get_best_server w st0 = Ok st1 ->
  download_upload w st1 = (st2, download_error, upload_error) ->
  run_speed_test w =
    match server st2 !! "name" with
    | Some name =>
        Ok {[ "Download" := format_2f w (download st2 / 1000000) +:+ " Mbps";
              "Upload" := format_2f w (upload st2 / 1000000) +:+ " Mbps";
              "Ping" := format_2f w (ping st2) +:+ " ms";
              "Server" := name ]}
    | None => Ok {[ "Error" := "'name'" ]}
    end.
Proof.
  intros H0 H1 H2. unfold run_speed_test, start_and_join, dict_getitem.
  rewrite H0. simpl. rewrite H1. simpl. rewrite H2. simpl.
  by destruct (server st2 !! "name").
Qed.

Lemma run_speed_test_contents_witness :
  run_speed_test nameless_server = Ok {[ "Error" := "'name'" ]}.
Proof.
  rewrite (run_speed_test_contents nameless_server fresh_results
             {| download := 0; upload := 0; ping := 25 # 2;
                server := {[ "id" := "1042" ]} |}
             {| download := 93456789; upload := 25000000; ping := 25 # 2;
                server := {[ "id" := "1042" ]} |} None None eq_refl eq_refl eq_refl).
  reflexivity.
Defined.

(** X11: after a speed test the display never says that no test was run.
    It shows "Error: " and the message exactly when the report is the
    failure record, and the four metrics otherwise. *)
Theorem display_speed_test_after_run (w : speed_world) (report : gmap string string) :
  run_speed_test w = Ok report ->
  _display_speed_test report <> NotRunYet
  /\ (forall message,
        report = {[ "Error" := message ]} <->
        _display_speed_test report = ShownSpeedError ("Error: " +:+ message))
  /\ (success_report report <-> _display_speed_test report = ShownMetrics report).
Proof.
  intros Hrun. pose proof (run_speed_test_report w) as Hshape.
  unfold _display_speed_test.
  destruct (handled_error w) as [e|].
  - rewrite Hrun in Hshape. injection Hshape as ->.
    destruct (decide (({[ "Error" := str e ]} : gmap string string) = ∅)) as [Hempty|_].
    { by apply map_non_empty_singleton in Hempty. }
    rewrite lookup_singleton_eq. split; [done|]. split.
    + intros message. split.
      * by intros ->%error_field_message.
      * intros Heq. injection Heq as Heq. change (str e = message) in Heq.
        by rewrite Heq.
    + split; [|done]. intros H. by apply error_field_not_success in H.
  - destruct Hshape as (d & u & p & n & Hshape).
    rewrite Hrun in Hshape. injection Hshape as ->.
    destruct (decide (_ = ∅)) as [Hempty|_].
    { by apply insert_non_empty in Hempty. }
    rewrite lookup_insert_ne, lookup_insert_ne, lookup_insert_ne, lookup_singleton_ne
      by done.
    split; [done|]. split.
    + intros message. split; [|done].
      intros H. exfalso. apply (four_fields_not_failure d u p n). by exists message.
    + split; [done|]. intros _. apply four_fields_success.
Qed.

Lemma display_speed_test_after_run_witness :
  _display_speed_test {[ "Error" := "" ]} <> NotRunYet
  /\ (forall message,
        ({[ "Error" := "" ]} : gmap string string) = {[ "Error" := message ]} <->
        _display_speed_test {[ "Error" := "" ]} = ShownSpeedError ("Error: " +:+ message))
  /\ (success_report {[ "Error" := "" ]} <->
      _display_speed_test {[ "Error" := "" ]} = ShownMetrics {[ "Error" := "" ]}).
Proof.
  apply (display_speed_test_after_run silent_failure {[ "Error" := "" ]}). reflexivity.
Defined.

(** ** A range written in decimal parses to its numbers *)

Lemma pretty_char_digit (k : N) :
  (k < 10)%N ->
  Py.isdigit (pretty_N_char k) = true /\ digit_value (pretty_N_char k) = Z.of_N k.
Proof.
  intros Hk.
  assert (k = 0 \/ k = 1 \/ k = 2 \/ k = 3 \/ k = 4 \/ k = 5 \/ k = 6 \/ k = 7
          \/ k = 8 \/ k = 9)%N as Hcases by lia.
  repeat (destruct Hcases as [->|Hcases]; [by vm_compute|]). subst. by vm_compute.
Qed.

Lemma all_digits_snoc (d : string) (c : ascii) :
  all_digits d = true -> Py.isdigit c = true -> all_digits (d +:+ String c "") = true.
Proof.
  intros Hd Hc. induction d as [|x d IH]; [by simpl; rewrite Hc|].
  change (String x d +:+ String c "") with (String x (d +:+ String c "")).
  simpl in *. apply andb_prop in Hd as [Hx Hd]. by rewrite Hx, IH.
Qed.

Lemma fold_digits_snoc (acc : Z) (d : string) (c : ascii) :
  fold_digits acc (d +:+ String c "") = (10 * fold_digits acc d + digit_value c)%Z.
Proof.
  revert acc. induction d as [|x d IH]; intros acc; [done|].
  change (String x d +:+ String c "") with (String x (d +:+ String c "")).
  simpl. by rewrite IH.
Qed.

Lemma length_snoc (d : string) (c : ascii) :
  String.length (d +:+ String c "") = S (String.length d).
Proof.
  induction d as [|x d IH]; [done|].
  change (String x d +:+ String c "") with (String x (d +:+ String c "")).
  simpl. by rewrite IH.
Qed.

Lemma append_snoc (d : string) (c : ascii) (s : string) :
  (d +:+ String c "") +:+ s = d +:+ String c s.
Proof.
  induction d as [|x d IH]; [done|].
  change (String x (d +:+ String c "") +:+ s = String x (d +:+ String c s)).
  change (String x ((d +:+ String c "") +:+ s) = String x (d +:+ String c s)).
  by rewrite IH.
Qed.

(** The decimal digits of a number, as [pretty] writes them in front of
    what is already there: no digit for 0, and no leading zero. *)
Lemma pretty_go_digits (x : N) :
  exists d,
    all_digits d = true
    /\ (forall s, pretty_N_go x s = d +:+ s)
    /\ (forall acc,
          fold_digits acc d = (acc * 10 ^ Z.of_nat (String.length d) + Z.of_N x)%Z)
    /\ ((0 < x)%N -> d <> "")
    /\ (d = "" \/ (10 ^ Z.of_nat (String.length d) <= 10 * Z.of_N x)%Z).
Proof.
  induction (N.lt_wf_0 x) as [x _ IH].
  destruct (decide (0 < x)%N) as [Hpos|Hzero].
  - destruct (IH (x `div` 10)%N) as (d & Hd & Hgo & Hval & _ & Hsize).
    { by apply N.div_lt. }
    destruct (pretty_char_digit (x `mod` 10)%N) as [Hdigit Hvalue].
    { by apply N.mod_lt. }
    pose proof (N.div_mod x 10 ltac:(done)) as Hdm.
    apply (f_equal Z.of_N) in Hdm. rewrite N2Z.inj_add, N2Z.inj_mul in Hdm.
    change (Z.of_N 10) with 10%Z in Hdm.
    pose proof (N2Z.is_nonneg (x `mod` 10)) as Hmod.
    exists (d +:+ String (pretty_N_char (x `mod` 10)) "").
    split; [by apply all_digits_snoc|]. split; [|split; [|split]].
    + intros s. by rewrite pretty_N_go_step, Hgo, append_snoc.
    + intros acc. rewrite fold_digits_snoc, Hval, Hvalue, length_snoc.
      rewrite Nat2Z.inj_succ, Z.pow_succ_r by lia. lia.
    + intros _. by destruct d.
    + right. rewrite length_snoc, Nat2Z.inj_succ, Z.pow_succ_r by lia.
      destruct Hsize as [->|Hsize]; [simpl; lia|lia].
  - assert (x = 0%N) as -> by lia. exists "".
    split; [done|]. split; [done|].
    split; [intros acc; simpl; lia|]. split; [lia|by left].
Qed.

Lemma digits_value_fold (acc : Z) (after_digit : bool) (d : string) :
  all_digits d = true -> d <> "" ->
  digits_value acc after_digit d = Some (fold_digits acc d).
Proof.
  revert acc after_digit. induction d as [|c d IH]; intros acc after_digit Hd Hne; [done|].
  simpl in *. apply andb_prop in Hd as [Hc Hd]. rewrite Hc.
  destruct d as [|c' d']; [done|]. by apply IH.
Qed.

Lemma all_digits_strip (drop : ascii -> bool) (d : string) :
  (forall c, Py.isdigit c = true -> drop c = false) ->
  all_digits d = true ->
  Py.lstrip_by drop (Py.rstrip_by drop d) = d.
Proof.
  intros Hdrop Hd.
  assert (Py.rstrip_by drop d = d) as ->.
  { induction d as [|c d IH]; [done|]. simpl in *.
    apply andb_prop in Hd as [Hc Hd]. by rewrite IH, (Hdrop c Hc). }
  destruct d as [|c d]; [done|]. simpl in *.
  apply andb_prop in Hd as [Hc _]. by rewrite (Hdrop c Hc).
Qed.

Lemma isdigit_not_int_space (c : ascii) : Py.isdigit c = true -> int_space c = false.
Proof. destruct c as [[] [] [] [] [] [] [] []]; vm_compute; congruence. Qed.

Lemma isdigit_not_sign (c : ascii) :
  Py.isdigit c = true -> c <> "+"%char /\ c <> "-"%char.
Proof. destruct c as [[] [] [] [] [] [] [] []]; vm_compute; split; congruence. Qed.

Lemma all_digits_no_dash (d : string) : all_digits d = true -> contains "-" d = false.
Proof.
  induction d as [|c d IH]; [done|]. simpl.
  intros [Hc Hd]%andb_prop. rewrite IH by done.
  destruct (isdigit_not_sign c Hc) as [_ Hminus].
  by destruct (Ascii.eqb_spec c "-").
Qed.

Lemma string_append_empty (d : string) : d +:+ "" = d.
Proof.
  induction d as [|c d IH]; [done|].
  change (String c (d +:+ "") = String c d). by rewrite IH.
Qed.

Lemma digit_count_all (d : string) :
  all_digits d = true -> digit_count d = N.of_nat (String.length d).
Proof.
  induction d as [|c d IH]; [done|].
  cbn [all_digits digit_count String.length].
  intros [Hc Hd]%andb_prop. rewrite Hc, (IH Hd). lia.
Qed.

(** The decimal text of a number that is not negative and has at most
    4300 digits: digits only, and [int] reads the number back. *)
Lemma pretty_nonneg (w : scan_world) (n : Z) :
  (0 <= n < 10 ^ 4300)%Z -> all_digits (pretty n) = true /\ int w (pretty n) = Ok n.
Proof.
  intros Hn.
  assert (exists d, pretty n = d /\ all_digits d = true /\ d <> ""
                    /\ fold_digits 0 d = n
                    /\ (digit_count d <= max_str_digits)%N)
    as (d & -> & Hd & Hne & Hval & Hcap).
  { destruct n as [|p|p]; [by exists "0"| |lia].
    destruct (pretty_go_digits (Npos p)) as (d & Hd & Hgo & Hval & Hne & Hsize).
    exists d. unfold pretty, pretty_Z, pretty, pretty_positive, pretty, pretty_N.
    destruct (decide (N.pos p = 0%N)); [done|].
    rewrite Hgo. split; [apply string_append_empty|].
    split; [done|]. split; [by apply Hne|].
    split; [rewrite Hval; simpl; lia|].
    rewrite (digit_count_all d Hd). unfold max_str_digits.
    destruct Hsize as [->|Hsize]; [simpl; lia|].
    assert (10 ^ Z.of_nat (String.length d) < 10 ^ 4301)%Z as Hlt.
    { change 4301%Z with (Z.succ 4300). rewrite Z.pow_succ_r by lia.
      change (Z.of_N (N.pos p)) with (Z.pos p) in Hsize.
      destruct Hn as [_ Hn]. revert Hn Hsize.
      generalize (10 ^ 4300)%Z (10 ^ Z.of_nat (String.length d))%Z. lia. }
    apply Z.pow_lt_mono_r_iff in Hlt; lia. }
  split; [done|]. unfold int.
  rewrite (all_digits_strip int_space d isdigit_not_int_space Hd).
  destruct d as [|c d]; [done|].
  assert (Py.isdigit c = true) as Hc by (simpl in Hd; by apply andb_prop in Hd as [? _]).
  destruct (isdigit_not_sign c Hc) as [Hplus Hminus].
  rewrite int_literal_unsigned, digits_value_fold by done.
  apply N.leb_le in Hcap. by rewrite Hcap, Hval.
Qed.

Lemma split_no_sep (sep : ascii) (text : string) :
  contains sep text = false -> Py.split sep text = [text].
Proof.
  induction text as [|c text IH]; [done|]. simpl.
  intros [Hc Htext]%orb_false_elim. by rewrite Hc, IH.
Qed.

(** X19: a range written as two decimal numbers around a dash parses to
    those numbers: for [start] and [end] that are not negative and have at
    most 4300 digits, the cap of the interpreter on decimal literals,
    [str(start) + "-" + str(end)] gives [(start, end)], and the scan of
    that string can probe the ports from [start] to [end] and return the
    open ones. *)
Theorem parse_ports_decimal (w : scan_world) (target : string) (timeout : Q)
    (start_port end_port : Z) :
  (0 <= start_port < 10 ^ 4300)%Z -> (0 <= end_port < 10 ^ 4300)%Z ->
  parse_ports w (pretty start_port +:+ String "-" (pretty end_port))
    = Ok (start_port, end_port)
  /\ port_scan w target (pretty start_port +:+ String "-" (pretty end_port)) timeout
       (Ports (open_among w target timeout (range start_port (end_port + 1))))
       (range start_port (end_port + 1)).
Proof.
  intros Hstart Hend.
  destruct (pretty_nonneg w start_port Hstart) as [Hds Hs].
  destruct (pretty_nonneg w end_port Hend) as [Hde He].
  assert (parse_ports w (pretty start_port +:+ String "-" (pretty end_port))
          = Ok (start_port, end_port)) as Hparse.
  { unfold parse_ports.
    rewrite split_join, !split_no_sep by (by apply all_digits_no_dash).
    simpl. by rewrite Hs, He. }
  split; [done|]. by eapply port_scan_complete.
Qed.

Lemma parse_ports_decimal_witness :
  parse_ports (listening [80]%Z) (pretty 80%Z +:+ String "-" (pretty 443%Z))
    = Ok (80, 443)%Z.
Proof.
  apply (parse_ports_decimal (listening [80]%Z) "192.168.1.1" 1 80 443);
    (split; [lia|]); apply Z.ltb_lt; vm_compute; reflexivity.
Defined.

(** ** Properties of the collection *)





(** ** Properties of the WiFi collector *)

Lemma linux_wifi_keys (text : string) :
  dom (linux_wifi text) = ({[ "SSID"; "Quality"; "Signal" ]} : gset string).
Proof. unfold linux_wifi. rewrite !dom_insert_L, dom_singleton_L. set_solver. Qed.

Lemma darwin_wifi_keys (text : string) :
  dom (darwin_wifi text) = ({[ "SSID"; "RSSI"; "Noise" ]} : gset string).
Proof. unfold darwin_wifi. rewrite !dom_insert_L, dom_singleton_L. set_solver. Qed.

(** X14: on Linux and on macOS [_get_wifi_info] leaves either a dict with
    all three of its keys (a piece that is not found reads "N/A") or,
    when the command fails, the one entry "Error" with a fixed text that
    does not carry the error; on any other platform it leaves the
    attribute as it was, so that a fresh analyzer shows the notice that
    there is no WiFi information exactly on those platforms. *)
Theorem wifi_dict_shape (h : host) (system : string) (wifi_info : gmap string string) :
  (forall text,
     system = "Linux" -> exec_output h ["iwconfig"] = Ok text ->
     wifi_dict h system wifi_info = linux_wifi text
     /\ dom (wifi_dict h system wifi_info) = {[ "SSID"; "Quality"; "Signal" ]})
  /\ (forall text,
        system = "Darwin" -> exec_output h [airport; "-I"] = Ok text ->
        wifi_dict h system wifi_info = darwin_wifi text
        /\ dom (wifi_dict h system wifi_info) = {[ "SSID"; "RSSI"; "Noise" ]})
  /\ (forall e,
        system = "Linux" /\ exec_output h ["iwconfig"] = Raise e
        \/ system = "Darwin" /\ exec_output h [airport; "-I"] = Raise e ->
        wifi_dict h system wifi_info = {[ "Error" := "Could not get WiFi info" ]})
  /\ (system <> "Linux" -> system <> "Darwin" ->
      wifi_dict h system wifi_info = wifi_info)
  /\ (_display_wifi_info (wifi_dict h system ∅) = None <->
      system <> "Linux" /\ system <> "Darwin").
Proof.
  unfold wifi_dict. split; [|split; [|split; [|split]]].
  - intros text -> Hout. simpl. rewrite Hout. split; [done|apply linux_wifi_keys].
  - intros text -> Hout. simpl. rewrite Hout. split; [done|apply darwin_wifi_keys].
  - intros e [[-> Hout]|[-> Hout]]; simpl; by rewrite Hout.
  - intros Hlinux Hdarwin.
    destruct (String.eqb_spec system "Linux"); [done|].
    by destruct (String.eqb_spec system "Darwin").
  - unfold _display_wifi_info.
    destruct (String.eqb_spec system "Linux") as [->|Hlinux].
    { split; [|by intros [? _]].
      destruct (exec_output h ["iwconfig"]); destruct (decide (_ = ∅)) as [Hempty|];
        try done; exfalso; revert Hempty;
        first [apply insert_non_empty | apply map_non_empty_singleton]. }
    destruct (String.eqb_spec system "Darwin") as [->|Hdarwin].
    { split; [|by intros [_ ?]].
      destruct (exec_output h [airport; "-I"]); destruct (decide (_ = ∅)) as [Hempty|];
        try done; exfalso; revert Hempty;
        first [apply insert_non_empty | apply map_non_empty_singleton]. }
    by destruct (decide (_ = ∅)).
Qed.

Lemma wifi_dict_shape_witness :
  wifi_dict broken_host "Linux" ∅ = {[ "Error" := "Could not get WiFi info" ]}
  /\ wifi_dict broken_host "Windows" ∅ = ∅.
Proof.
  destruct (wifi_dict_shape broken_host "Linux" ∅) as (_ & _ & Herr & _).
  destruct (wifi_dict_shape broken_host "Windows" ∅) as (_ & _ & _ & Hother & _).
  split.
  - apply (Herr (Exception "command failed")). left. split; reflexivity.
  - apply Hother; discriminate.
Defined.

Lemma append_cons (c : ascii) (a b : string) : String c a +:+ b = String c (a +:+ b).
Proof. reflexivity. Qed.

Lemma append_nil (b : string) : "" +:+ b = b.
Proof. reflexivity. Qed.

Lemma strip_prefix_app (p s : string) : strip_prefix p (p +:+ s) = Some s.
Proof.
  induction p as [|c p IH]; [rewrite append_nil; by destruct s|].
  rewrite append_cons. simpl. by rewrite Ascii.eqb_refl.
Qed.

Lemma length_append_one (a : string) (c : ascii) :
  String.length (a +:+ String c "") = S (String.length a).
Proof.
  induction a as [|x a IH]; [done|]. rewrite append_cons. simpl. by rewrite IH.
Qed.

Lemma re_search_here (pattern : string -> option string) (text group : string) :
  pattern text = Some group -> re_search pattern text = Some group.
Proof. intros H. destruct text; simpl; by rewrite H. Qed.

(** The search skips the text before the leftmost occurrence of the
    label the pattern begins with. *)
Lemma re_search_first (label : string) (group : string -> option string)
    (pre rest : string) :
  index_of label (pre +:+ rest) = Some (String.length pre) ->
  re_search (fun s => strip_prefix label s ≫= group) (pre +:+ rest) =
    re_search (fun s => strip_prefix label s ≫= group) rest.
Proof.
  induction pre as [|c pre IH]; [done|].
  change (String c pre +:+ rest) with (String c (pre +:+ rest)).
  cbn [index_of re_search String.length].
  destruct (strip_prefix label (String c (pre +:+ rest))) as [r|]; [discriminate|].
  cbn. intros Hindex. apply IH.
  destruct (index_of label (pre +:+ rest)) as [n|]; [|discriminate].
  cbn in Hindex. congruence.
Qed.

Lemma until_quote_app (name post : string) :
  contains quote name = false -> contains newline name = false ->
  until_quote (name +:+ String quote post) = Some name.
Proof.
  induction name as [|c name IH].
  - reflexivity.
  - rewrite append_cons. simpl.
    intros [Hq Hqs]%orb_false_elim [Hn Hns]%orb_false_elim.
    rewrite Hq, Hn, IH by done. reflexivity.
Qed.

Lemma line_rest_app (v post : string) :
  contains newline v = false -> line_rest (v +:+ String newline post) = v.
Proof.
  induction v as [|c v IH].
  - reflexivity.
  - rewrite append_cons. simpl. intros [Hn Hns]%orb_false_elim.
    by rewrite Hn, IH.
Qed.

(** X15: when the leftmost [ESSID:] label with its opening quote is
    followed by a name without quote and newline and by the closing quote,
    the "SSID" entry of the Linux dict is that name. *)
Theorem linux_wifi_essid (pre name post : string) :
  index_of essid_label (pre +:+ essid_label +:+ name +:+ String quote post)
    = Some (String.length pre) ->
  contains quote name = false ->
  contains newline name = false ->
  linux_wifi (pre +:+ essid_label +:+ name +:+ String quote post) !! "SSID" = Some name.
Proof.
  intros Hfirst Hquote Hline. unfold linux_wifi. rewrite lookup_insert_eq.
  unfold essid_pattern. rewrite (re_search_first _ _ _ _ Hfirst).
  rewrite (re_search_here _ _ name); [done|].
  by rewrite strip_prefix_app; simpl; apply until_quote_app.
Qed.

Lemma linux_wifi_essid_witness : linux_wifi iwconfig_output !! "SSID" = Some "Home Net".
Proof.
  apply (linux_wifi_essid "wlan0     IEEE 802.11  " "Home Net"
           (String newline ("          Link Quality=58/70  Signal level=-52 dBm"
                            +:+ String newline ""))); reflexivity.
Defined.

(** X16: on macOS the pattern for the network name also matches inside
    the label [BSSID: ]. When that is the leftmost place where [SSID: ]
    occurs, the "SSID" entry is the rest of the BSSID line, stripped: the
    address of the access point, not the name of the network. *)
Theorem darwin_wifi_bssid (pre value post : string) :
  index_of "SSID: " (pre +:+ "BSSID: " +:+ value +:+ String newline post)
    = Some (S (String.length pre)) ->
  value <> "" ->
  contains newline value = false ->
  darwin_wifi (pre +:+ "BSSID: " +:+ value +:+ String newline post) !! "SSID"
    = Some (Py.strip value).
Proof.
  intros Hfirst Hvalue Hline. unfold darwin_wifi. rewrite lookup_insert_eq.
  unfold rest_of_line_pattern.
  change (pre +:+ "BSSID: " +:+ value +:+ String newline post)
    with (pre +:+ (String "B" "" +:+ ("SSID: " +:+ value +:+ String newline post)))
    in Hfirst |- *.
  rewrite <- string_append_assoc in Hfirst |- *.
  rewrite <- length_append_one with (c := "B"%char) in Hfirst.
  rewrite (re_search_first _ _ _ _ Hfirst).
  rewrite (re_search_here _ _ value); [done|].
  rewrite strip_prefix_app. simpl. unfold rest_of_line_group.
  rewrite line_rest_app by done. by destruct value.
Qed.

Lemma darwin_wifi_bssid_witness :
  darwin_wifi airport_output !! "SSID" = Some "a4:2b:8c:11:22:33".
Proof.
  apply (darwin_wifi_bssid
           ("     agrCtlRSSI: -47" +:+ String newline
            ("     agrCtlNoise: -92" +:+ String newline "          "))
           "a4:2b:8c:11:22:33"
           ("           SSID: Home Net" +:+ String newline ""));
    [reflexivity|discriminate|reflexivity].
Defined.

Lemma take_digits_app (digits rest : string) :
  all_digits digits = true -> take_digits rest = "" ->
  take_digits (digits +:+ rest) = digits.
Proof.
  intros Hdigits Hrest. induction digits as [|c digits IH]; [done|].
  rewrite append_cons. simpl in *.
  apply andb_prop in Hdigits as [Hc Hdigits]. by rewrite Hc, IH.
Qed.

Lemma skip_digits_app (digits rest : string) :
  all_digits digits = true -> take_digits rest = "" ->
  Py.skip_digits (digits +:+ rest) = rest.
Proof.
  intros Hdigits Hrest. induction digits as [|c digits IH].
  - rewrite append_nil. destruct rest as [|c rest]; [done|].
    simpl in *. by destruct (Py.isdigit c).
  - rewrite append_cons. simpl in *.
    apply andb_prop in Hdigits as [Hc Hdigits]. by rewrite Hc, IH.
Qed.

Lemma signal_group_digits (sign digits post : string) :
  sign = "" \/ sign = "-" ->
  digits <> "" ->
  all_digits digits = true ->
  signal_group (sign +:+ digits +:+ " dBm" +:+ post) = Some (sign +:+ digits).
Proof.
  intros Hsign Hne Hdigits. unfold signal_group.
  assert (take_digits (" dBm" +:+ post) = "") as Hunit by reflexivity.
  assert (strip_prefix "-" (sign +:+ digits +:+ " dBm" +:+ post)
          = if Py.is_empty sign then None else Some (digits +:+ " dBm" +:+ post))
    as Hminus.
  { destruct Hsign as [->| ->]; [|reflexivity].
    rewrite append_nil. destruct digits as [|c digits]; [done|].
    rewrite append_cons. cbn [all_digits] in Hdigits.
    apply andb_prop in Hdigits as [Hc _]. cbn [strip_prefix Py.is_empty].
    destruct (Ascii.eqb_spec "-" c) as [<-|_]; [discriminate|reflexivity]. }
  rewrite Hminus.
  destruct Hsign as [->| ->]; simpl Py.is_empty; cbv iota; rewrite ?append_nil;
    rewrite take_digits_app, skip_digits_app by done;
    (destruct digits; [done|]); reflexivity.
Qed.

(** X17: when the leftmost [Signal level=] label is followed by an
    optional minus sign, digits and the unit " dBm", the "Signal" entry of
    the Linux dict is the signed number followed by " dBm". *)
Theorem linux_wifi_signal (pre sign digits post : string) :
  index_of "Signal level="
    (pre +:+ "Signal level=" +:+ sign +:+ digits +:+ " dBm" +:+ post)
    = Some (String.length pre) ->
  sign = "" \/ sign = "-" ->
  digits <> "" ->
  all_digits digits = true ->
  linux_wifi (pre +:+ "Signal level=" +:+ sign +:+ digits +:+ " dBm" +:+ post) !! "Signal"
    = Some (sign +:+ digits +:+ " dBm").
Proof.
  intros Hfirst Hsign Hne Hdigits. unfold linux_wifi.
  rewrite lookup_insert_ne, lookup_insert_ne, lookup_singleton_eq by done.
  unfold signal_pattern. rewrite (re_search_first _ _ _ _ Hfirst).
  rewrite (re_search_here _ _ (sign +:+ digits)).
  - by rewrite string_append_assoc.
  - rewrite strip_prefix_app. simpl. by apply signal_group_digits.
Qed.

Lemma linux_wifi_signal_witness : linux_wifi iwconfig_output !! "Signal" = Some "-52 dBm".
Proof.
  apply (linux_wifi_signal
           ("wlan0     IEEE 802.11  ESSID:" +:+ String quote ("Home Net" +:+ String quote
              (String newline "          Link Quality=58/70  ")))
           "-" "52" (String newline ""));
    [reflexivity|by right|discriminate|reflexivity].
Defined.
